(** * CCameraServo: the camera-mount servo controller of the OpenROV 2.x sketch

    A shallow embedding of [sketches/OpenROV2x/CCameraServo.cpp].

    - [float] of the AVR target is IEEE-754 binary32; it is modelled bit for
      bit with the parametric specification of the Standard Library
      ([SpecFloat], precision 24, [emax] 128, round to nearest even),
      infinities, NaN and signed zeros included. Division by zero is the
      IEEE one: it gives an infinity or NaN and does not trap.
    - [uint32_t] and [int32_t] are [Z]; wrap-around is written out where the
      source relies on it.
    - A conversion from [float] to an integer type whose truncated value
      does not fit the destination is undefined in C++: such conversions
      return [None], and every function that performs one is in the
      [option] monad.
    - The serial port is a list of output tokens, the two [CTimer] gates and
      [millis()] are inputs of [Update]. [GatedUpdate] puts [Update] behind
      its gates and the clock; [CTimer] is not part of the file, and the
      gates are modelled from the specification. *)

From Stdlib Require Import ZArith Bool List String Ascii Lia.
From Stdlib Require Import Floats.SpecFloat.
Import ListNotations.
Open Scope string_scope.
Open Scope Z_scope.

(** ** binary32 arithmetic *)
Module F32.

Definition prec : Z := 24.
Definition emax : Z := 128.

Definition float := spec_float.

Definition add : float -> float -> float := SFadd prec emax.
Definition sub : float -> float -> float := SFsub prec emax.
Definition mul : float -> float -> float := SFmul prec emax.
Definition div : float -> float -> float := SFdiv prec emax.
Definition opp : float -> float := SFopp.
Definition abs : float -> float := SFabs.
Definition ltb : float -> float -> bool := SFltb.
Definition leb : float -> float -> bool := SFleb.
Definition eqb : float -> float -> bool := SFeqb.

(** [static_cast<float>( n )] for an integer [n]. *)
Definition of_Z (n : Z) : float := binary_normalize prec emax n 0 false.

(** A decimal literal [num / den] with [num], [den] below [2^24]: both are
    exact in binary32 and the division rounds correctly, which is the
    value the compiler gives the literal. *)
Definition lit (num den : Z) : float := div (of_Z num) (of_Z den).

(** The integer part of a finite float, rounded toward zero. *)
Definition trunc (x : float) : option Z :=
  match x with
  | S754_zero _ => Some 0
  | S754_finite s m e => Some (cond_Zopp s (Z.shiftl (Zpos m) e))
  | S754_infinity _ | S754_nan => None
  end.

Definition in_range (lo hi : Z) (z : Z) : bool := (lo <=? z) && (z <=? hi).

(** [static_cast<uint32_t>( x )]: defined only when the truncated value is
    representable. *)
Definition to_uint32 (x : float) : option Z :=
  match trunc x with
  | Some z => if in_range 0 (2 ^ 32 - 1) z then Some z else None
  | None => None
  end.

(** [static_cast<int32_t>( x )]. *)
Definition to_int32 (x : float) : option Z :=
  match trunc x with
  | Some z => if in_range (- 2 ^ 31) (2 ^ 31 - 1) z then Some z else None
  | None => None
  end.

Definition is_finite (x : float) : bool :=
  match x with
  | S754_zero _ | S754_finite _ _ _ => true
  | _ => false
  end.

(** Negative and not zero: a negative finite number or minus infinity. *)
Definition is_negative (x : float) : bool :=
  match x with
  | S754_finite true _ _ | S754_infinity true => true
  | _ => false
  end.

(** [x] is not NaN and carries the sign bit [s]. *)
Definition has_sign (s : bool) (x : float) : bool :=
  match x with
  | S754_zero s' | S754_infinity s' | S754_finite s' _ _ => Bool.eqb s s'
  | S754_nan => false
  end.

(** The exact value of a finite float is [numer x / denom x]; [denom x] is
    a power of two, and one of the two powers below is [2 ^ 0]. *)
Definition numer (x : float) : Z :=
  match x with
  | S754_finite s m e => cond_Zopp s (Zpos m * 2 ^ Z.max e 0)
  | _ => 0
  end.

Definition denom (x : float) : Z :=
  match x with
  | S754_finite _ _ e => 2 ^ Z.max (- e) 0
  | _ => 1
  end.

(** Rounding to the nearest integer, halves away from zero: what the
    specification calls [round]. *)
Definition round_nearest (x : float) : option Z :=
  match x with
  | S754_zero _ => Some 0
  | S754_finite s m e =>
      Some (cond_Zopp s ((2 * Zpos m * 2 ^ Z.max e 0 + 2 ^ Z.max (- e) 0)
                         / (2 * 2 ^ Z.max (- e) 0)))
  | S754_infinity _ | S754_nan => None
  end.

End F32.

Definition float : Type := F32.float.

(** ** The option monad of partially defined conversions *)

Definition bind {A B : Type} (c : option A) (k : A -> option B) : option B :=
  match c with
  | Some a => k a
  | None => None
  end.

Notation "x <- c ;; k" := (bind c (fun x => k))
  (at level 61, c at next level, right associativity).
Notation "'ret' x" := (Some x) (at level 60).

(** ** File-local constants and helpers (lines 26-85) *)

Definition kZeroPosMicrosecs : float := F32.of_Z 1487.
Definition kMicrosecPerDegree : float := F32.lit 9523809 1000000.
Definition kDegPerMicrosec : float := F32.div (F32.of_Z 1) kMicrosecPerDegree.

Definition f0_001 : float := F32.lit 1 1000.
Definition f1000 : float := F32.of_Z 1000.

Definition DegreesToMicroseconds (degreesIn : float) (isInverted : bool)
  : option Z :=
  F32.to_uint32
    (F32.add
       (F32.mul kMicrosecPerDegree
          (if isInverted then F32.opp degreesIn else degreesIn))
       kZeroPosMicrosecs).

Definition MicrosecondsToDegrees (microsecondsIn : Z) (isInverted : bool)
  : float :=
  if isInverted
  then F32.opp (F32.mul (F32.sub (F32.of_Z microsecondsIn) kZeroPosMicrosecs)
                  kDegPerMicrosec)
  else F32.mul (F32.sub (F32.of_Z microsecondsIn) kZeroPosMicrosecs)
         kDegPerMicrosec.

Definition kNeutralPosition_deg : float := S754_zero false.
Definition kNeutralPosition_us : Z := 1487.
Definition kDefaultSpeed : float := F32.of_Z 50.

Definition Encode (valueIn : float) : option Z :=
  F32.to_int32 (F32.mul valueIn f1000).

Definition Decode (valueIn : Z) : float :=
  F32.mul (F32.of_Z valueIn) f0_001.

(** ** Controller state (lines 49-67) and the compare register [OCR1A] *)

Record ServoState := mkState {
  m_targetPos_deg   : float;
  m_currentPos_deg  : float;
  m_targetPos_us    : Z;
  m_currentPos_us   : Z;
  m_fCurrentPos_us  : float;
  m_tDelta          : Z;
  m_tLast           : Z;
  m_speed_deg_per_s : float;
  m_isInverted      : Z;
  m_speed_us_per_ms : float;
  OCR1A             : Z
}.

Definition speed_us_per_ms_of (speed_deg_per_s : float) : float :=
  F32.mul (F32.mul speed_deg_per_s f0_001) kMicrosecPerDegree.

(** [OCR1A] is a 16-bit register; [Initialize] leaves the neutral position
    in it. *)
Definition ocr_of (microsecondsIn : Z) : Z := (microsecondsIn * 2) mod 2 ^ 16.

Definition initial_state : ServoState :=
  {| m_targetPos_deg   := kNeutralPosition_deg;
     m_currentPos_deg  := kNeutralPosition_deg;
     m_targetPos_us    := kNeutralPosition_us;
     m_currentPos_us   := kNeutralPosition_us;
     m_fCurrentPos_us  := kZeroPosMicrosecs;
     m_tDelta          := 0;
     m_tLast           := 0;
     m_speed_deg_per_s := kDefaultSpeed;
     m_isInverted      := 0;
     m_speed_us_per_ms := speed_us_per_ms_of kDefaultSpeed;
     OCR1A             := ocr_of kNeutralPosition_us |}.

Definition SetServoPosition (microsecondsIn : Z) (s : ServoState)
  : ServoState :=
  {| m_targetPos_deg   := m_targetPos_deg s;
     m_currentPos_deg  := m_currentPos_deg s;
     m_targetPos_us    := m_targetPos_us s;
     m_currentPos_us   := m_currentPos_us s;
     m_fCurrentPos_us  := m_fCurrentPos_us s;
     m_tDelta          := m_tDelta s;
     m_tLast           := m_tLast s;
     m_speed_deg_per_s := m_speed_deg_per_s s;
     m_isInverted      := m_isInverted s;
     m_speed_us_per_ms := m_speed_us_per_ms s;
     OCR1A             := ocr_of microsecondsIn |}.

(** Field updates used by [Update]. *)
Definition set_target (deg : float) (us : Z) (s : ServoState) : ServoState :=
  {| m_targetPos_deg   := deg;
     m_currentPos_deg  := m_currentPos_deg s;
     m_targetPos_us    := us;
     m_currentPos_us   := m_currentPos_us s;
     m_fCurrentPos_us  := m_fCurrentPos_us s;
     m_tDelta          := m_tDelta s;
     m_tLast           := m_tLast s;
     m_speed_deg_per_s := m_speed_deg_per_s s;
     m_isInverted      := m_isInverted s;
     m_speed_us_per_ms := m_speed_us_per_ms s;
     OCR1A             := OCR1A s |}.

Definition set_speed (deg_per_s us_per_ms : float) (s : ServoState)
  : ServoState :=
  {| m_targetPos_deg   := m_targetPos_deg s;
     m_currentPos_deg  := m_currentPos_deg s;
     m_targetPos_us    := m_targetPos_us s;
     m_currentPos_us   := m_currentPos_us s;
     m_fCurrentPos_us  := m_fCurrentPos_us s;
     m_tDelta          := m_tDelta s;
     m_tLast           := m_tLast s;
     m_speed_deg_per_s := deg_per_s;
     m_isInverted      := m_isInverted s;
     m_speed_us_per_ms := us_per_ms;
     OCR1A             := OCR1A s |}.

Definition set_inverted (v : Z) (s : ServoState) : ServoState :=
  {| m_targetPos_deg   := m_targetPos_deg s;
     m_currentPos_deg  := m_currentPos_deg s;
     m_targetPos_us    := m_targetPos_us s;
     m_currentPos_us   := m_currentPos_us s;
     m_fCurrentPos_us  := m_fCurrentPos_us s;
     m_tDelta          := m_tDelta s;
     m_tLast           := m_tLast s;
     m_speed_deg_per_s := m_speed_deg_per_s s;
     m_isInverted      := v;
     m_speed_us_per_ms := m_speed_us_per_ms s;
     OCR1A             := OCR1A s |}.

Definition set_current (us : Z) (f_us : float) (s : ServoState) : ServoState :=
  {| m_targetPos_deg   := m_targetPos_deg s;
     m_currentPos_deg  := m_currentPos_deg s;
     m_targetPos_us    := m_targetPos_us s;
     m_currentPos_us   := us;
     m_fCurrentPos_us  := f_us;
     m_tDelta          := m_tDelta s;
     m_tLast           := m_tLast s;
     m_speed_deg_per_s := m_speed_deg_per_s s;
     m_isInverted      := m_isInverted s;
     m_speed_us_per_ms := m_speed_us_per_ms s;
     OCR1A             := OCR1A s |}.

Definition set_current_deg (deg : float) (s : ServoState) : ServoState :=
  {| m_targetPos_deg   := m_targetPos_deg s;
     m_currentPos_deg  := deg;
     m_targetPos_us    := m_targetPos_us s;
     m_currentPos_us   := m_currentPos_us s;
     m_fCurrentPos_us  := m_fCurrentPos_us s;
     m_tDelta          := m_tDelta s;
     m_tLast           := m_tLast s;
     m_speed_deg_per_s := m_speed_deg_per_s s;
     m_isInverted      := m_isInverted s;
     m_speed_us_per_ms := m_speed_us_per_ms s;
     OCR1A             := OCR1A s |}.

Definition set_tDelta (d : Z) (s : ServoState) : ServoState :=
  {| m_targetPos_deg   := m_targetPos_deg s;
     m_currentPos_deg  := m_currentPos_deg s;
     m_targetPos_us    := m_targetPos_us s;
     m_currentPos_us   := m_currentPos_us s;
     m_fCurrentPos_us  := m_fCurrentPos_us s;
     m_tDelta          := d;
     m_tLast           := m_tLast s;
     m_speed_deg_per_s := m_speed_deg_per_s s;
     m_isInverted      := m_isInverted s;
     m_speed_us_per_ms := m_speed_us_per_ms s;
     OCR1A             := OCR1A s |}.

Definition set_tLast (t : Z) (s : ServoState) : ServoState :=
  {| m_targetPos_deg   := m_targetPos_deg s;
     m_currentPos_deg  := m_currentPos_deg s;
     m_targetPos_us    := m_targetPos_us s;
     m_currentPos_us   := m_currentPos_us s;
     m_fCurrentPos_us  := m_fCurrentPos_us s;
     m_tDelta          := m_tDelta s;
     m_tLast           := t;
     m_speed_deg_per_s := m_speed_deg_per_s s;
     m_isInverted      := m_isInverted s;
     m_speed_us_per_ms := m_speed_us_per_ms s;
     OCR1A             := OCR1A s |}.

(** ** Collaborators: the command, the serial port and the scheduler inputs *)

(** [CCommand]: the command name and its integer arguments; the first
    argument of a command is [m_arguments[1]]. *)
Record CCommand := mkCommand {
  m_text      : string;
  m_arguments : list Z
}.

(** Modelled from the spec: [CCommand::Equals] is not part of this file;
    section 4.4 has the command names recognised by a case-sensitive, exact
    match. *)
Definition Equals (command : CCommand) (name : string) : bool :=
  String.eqb (m_text command) name.

Definition argument1 (command : CCommand) : Z := nth 1 (m_arguments command) 0.

(** What [Serial.print] and [Serial.println] are called with. *)
Inductive SerialOut :=
| print_F (text : string)
| print_int (value : Z)
| println_char (c : ascii).

(** What one call of [Update] reads from its environment:
    [NCommManager::m_isCommandAvailable], the two timers' [HasElapsed] and
    the two reads of [millis()]. *)
Record Env := mkEnv {
  isCommandAvailable : bool;
  controlElapsed     : bool;
  millis_first       : Z;
  millis_second      : Z;
  telemetryElapsed   : bool
}.

(** ** [CCameraServo::Update], lines 113-161: the command handler *)

Definition HandleCommand (command : CCommand) (s : ServoState)
  : option (ServoState * list SerialOut) :=
  if Equals command "camServ_tpos" then
    let deg := Decode (argument1 command) in
    us <- DegreesToMicroseconds deg (negb (m_isInverted s =? 0)) ;;
    ret (set_target deg us s,
         [print_F "camServ_tpos:"; print_int (argument1 command);
          println_char ";"%char])
  else if Equals command "camServ_spd" then
    let speed := Decode (argument1 command) in
    ret (set_speed speed (speed_us_per_ms_of speed) s,
         [print_F "camServ_spd:"; print_int (argument1 command);
          println_char ";"%char])
  else if Equals command "camServ_inv" then
    if argument1 command =? 1 then
      ret (set_inverted 1 s, [print_F "camServ_inv:1;"])
    else if argument1 command =? 0 then
      ret (set_inverted 0 s, [print_F "camServ_inv:0;"])
    else ret (s, [])
  else ret (s, []).

(** ** [CCameraServo::Update], lines 169-201: one position update

    The elapsed time [tDelta] is the value that line 167 has just stored in
    [m_tDelta]; [ControlTick] below passes the stored value. *)

(** Line 172. *)
Definition tick_error (s : ServoState) : float :=
  F32.sub (F32.of_Z (m_targetPos_us s)) (m_fCurrentPos_us s).

(** Line 175: the test that selects the direct move. *)
Definition snap_test (s : ServoState) (tDelta : Z) : bool :=
  F32.ltb (F32.div (tick_error s) (F32.of_Z tDelta)) (m_speed_us_per_ms s).

Inductive Branch := NoMove | Snap | Step.

Definition tick_branch (s : ServoState) (tDelta : Z) : Branch :=
  if m_currentPos_us s =? m_targetPos_us s then NoMove
  else if snap_test s tDelta then Snap else Step.

(** Lines 182-185. *)
Definition snap_move (s : ServoState) : ServoState :=
  set_current (m_targetPos_us s) (F32.of_Z (m_targetPos_us s)) s.

(** Lines 190-193. *)
Definition step_move (s : ServoState) : option ServoState :=
  let f_us := F32.add (m_fCurrentPos_us s)
                (F32.mul (m_speed_us_per_ms s) (tick_error s)) in
  us <- F32.to_uint32 f_us ;;
  ret (set_current us f_us s).

(** Lines 197-200. *)
Definition publish (s : ServoState) : ServoState :=
  set_current_deg (MicrosecondsToDegrees (m_currentPos_us s) false)
    (SetServoPosition (m_currentPos_us s) s).

Definition PositionUpdate (tDelta : Z) (s : ServoState) : option ServoState :=
  match tick_branch s tDelta with
  | NoMove => ret s
  | Snap => ret (publish (snap_move s))
  | Step => s' <- step_move s ;; ret (publish s')
  end.

(** Lines 164-204: the 200 Hz block. [millis() - m_tLast] wraps modulo
    [2^32]. *)
Definition ControlTick (now_first now_second : Z) (s : ServoState)
  : option ServoState :=
  let tDelta := (now_first - m_tLast s) mod 2 ^ 32 in
  s' <- PositionUpdate tDelta (set_tDelta tDelta s) ;;
  ret (set_tLast now_second s').

(** Lines 207-212: the 10 Hz telemetry. *)
Definition Telemetry (s : ServoState) : option (list SerialOut) :=
  v <- Encode (m_currentPos_deg s) ;;
  ret [print_F "camServ_pos:"; print_int v; println_char ";"%char].

Definition Update (env : Env) (command : CCommand) (s : ServoState)
  : option (ServoState * list SerialOut) :=
  r1 <- (if isCommandAvailable env then HandleCommand command s
         else ret (s, [])) ;;
  s2 <- (if controlElapsed env
         then ControlTick (millis_first env) (millis_second env) (fst r1)
         else ret (fst r1)) ;;
  out <- (if telemetryElapsed env then Telemetry s2 else ret []) ;;
  ret (s2, (snd r1 ++ out)%list).

(** ** Runs of the position update and scenarios used below *)

(** [n] position updates in a row, each with the same elapsed time. *)
Fixpoint run_ticks (n : nat) (tDelta : Z) (s : ServoState)
  : option ServoState :=
  match n with
  | O => ret s
  | S n' => s' <- PositionUpdate tDelta s ;; run_ticks n' tDelta s'
  end.

Definition at_target (s : ServoState) : Prop :=
  m_currentPos_us s = m_targetPos_us s.

(** The state after a list of commands, each handled by [HandleCommand]. *)
Fixpoint after_commands (cs : list CCommand) (s : ServoState)
  : option ServoState :=
  match cs with
  | [] => ret s
  | c :: cs' => r <- HandleCommand c s ;; after_commands cs' (fst r)
  end.

Definition camServ_tpos (arg : Z) : CCommand := mkCommand "camServ_tpos" [1; arg].
Definition camServ_spd (arg : Z) : CCommand := mkCommand "camServ_spd" [1; arg].
Definition camServ_inv (arg : Z) : CCommand := mkCommand "camServ_inv" [1; arg].

(** The invariant of section 3 of the specification. *)
Definition target_in_sync (s : ServoState) : Prop :=
  DegreesToMicroseconds (m_targetPos_deg s) (negb (m_isInverted s =? 0))
  = Some (m_targetPos_us s).

(** The speed-cap test as the specification words it, with the magnitude of
    the error. *)
Definition snap_test_abs (s : ServoState) (tDelta : Z) : bool :=
  F32.ltb (F32.div (F32.abs (tick_error s)) (F32.of_Z tDelta))
    (m_speed_us_per_ms s).

(** Scenarios: states reached from [initial_state] by commands. *)

(** The state after [camServ_tpos:-30000;] at the default speed. *)
Definition neutral_to_minus_30 : option ServoState :=
  after_commands [camServ_tpos (-30000)] initial_state.

(** The state after [camServ_spd:210000;] and [camServ_tpos:30000;]. *)
Definition fast_to_30 : option ServoState :=
  after_commands [camServ_spd 210000; camServ_tpos 30000] initial_state.

(** The state after [camServ_spd:1;] and [camServ_tpos:500;]. *)
Definition slowest_to_half : option ServoState :=
  after_commands [camServ_spd 1; camServ_tpos 500] initial_state.

(** The state after [camServ_tpos:10000;] followed by [camServ_inv:1;]. *)
Definition inverted_after_target : option ServoState :=
  after_commands [camServ_tpos 10000; camServ_inv 1] initial_state.

(** The state after [camServ_spd:100;] and [camServ_tpos:500;]. *)
Definition slow_to_half : option ServoState :=
  after_commands [camServ_spd 100; camServ_tpos 500] initial_state.

(** The state after [camServ_tpos:30000;] at the default speed. *)
Definition default_to_30 : option ServoState :=
  after_commands [camServ_tpos 30000] initial_state.

(** The same state, field by field. *)
Definition target_at_30 : ServoState :=
  set_target (Decode 30000) 1772 initial_state.

(** The state after [camServ_inv:1;] followed by [camServ_tpos:10000;]. *)
Definition inverted_to_10 : option ServoState :=
  after_commands [camServ_inv 1; camServ_tpos 10000] initial_state.

(** The same state, field by field. *)
Definition inverted_at_10 : ServoState :=
  set_target (Decode 10000) 1391 (set_inverted 1 initial_state).

(** ** The specification's wording of two helpers, for comparison *)

(** [encode(v) = round(v * 1000)]. *)
Definition Encode_rounding (valueIn : float) : option Z :=
  match F32.round_nearest (F32.mul valueIn f1000) with
  | Some z => if F32.in_range (- 2 ^ 31) (2 ^ 31 - 1) z then Some z else None
  | None => None
  end.

(** A floating tolerance for the angle round trip, taken generously: a
    thousandth of a degree, one unit of the wire encoding, about ten thousand
    times the spacing of binary32 numbers near one degree. *)
Definition round_trip_tolerance : float := F32.lit 1 1000.

(** ** Checking a decidable property on an interval of integers *)

(** [all_between fuel lo hi P]: [P] holds on every integer of [lo .. hi], by
    bisection; the answer is [false] when [fuel] is too small for the
    interval. *)
Fixpoint all_between (fuel : nat) (lo hi : Z) (P : Z -> bool) : bool :=
  if hi <? lo then true
  else
    match fuel with
    | O => false
    | S fuel' =>
        let mid := (lo + hi) / 2 in
        P mid && all_between fuel' lo (mid - 1) P
        && all_between fuel' (mid + 1) hi P
    end.

(** The angle round trip of the two converters, and its distance from the
    angle it started from. *)
Definition round_trip (degreesIn : float) (isInverted : bool) : option float :=
  us <- DegreesToMicroseconds degreesIn isInverted ;;
  ret (MicrosecondsToDegrees us isInverted).

Definition round_trip_error (degreesIn : float) (isInverted : bool)
  : option float :=
  r <- round_trip degreesIn isInverted ;;
  ret (F32.abs (F32.sub r degreesIn)).

(** The round trip of the angle that the wire value [v] encodes comes back
    within one pulse-width unit, [kDegPerMicrosec] degrees. *)
Definition round_trip_within_unit (isInverted : bool) (v : Z) : bool :=
  match round_trip_error (Decode v) isInverted with
  | Some err => F32.leb err kDegPerMicrosec
  | None => false
  end.

(** The largest wire value, in thousandths of a degree, of the interval on
    which the round trip is checked. *)
Definition checked_travel : Z := 45000.

(** The largest wire value up to which, in both directions and for both
    inversion states, the round trip stays within one pulse-width unit:
    97.019 degrees. *)
Definition one_unit_travel : Z := 97019.

(** [Encode] and the specification's rounding agree on the angle of the
    pulse width [us]. *)
Definition Encode_agrees (us : Z) : bool :=
  match Encode (MicrosecondsToDegrees us false),
        Encode_rounding (MicrosecondsToDegrees us false) with
  | Some a, Some b => a =? b
  | _, _ => false
  end.

(** The linear image of an angle, before the conversion to [uint32_t]
    (line 31). *)
Definition pulse_of_degrees (degreesIn : float) (isInverted : bool) : float :=
  F32.add
    (F32.mul kMicrosecPerDegree
       (if isInverted then F32.opp degreesIn else degreesIn))
    kZeroPosMicrosecs.

(** ** The rate gate and the clock *)















(** ** Runs of [Update] and what they keep *)

(** Successive calls of [Update], each with its environment and the command
    buffer of that call; the serial output is collected in order. *)
Fixpoint run_updates (inputs : list (Env * CCommand)) (s : ServoState)
  : option (ServoState * list SerialOut) :=
  match inputs with
  | [] => ret (s, [])
  | (env, command) :: rest =>
      r <- Update env command s ;;
      r' <- run_updates rest (fst r) ;;
      ret (fst r', (snd r ++ snd r')%list)
  end.

(** What every reachable state satisfies: the compare register and the angle
    follow the position, and the cached speed follows the speed setting. *)
Definition consistent (s : ServoState) : Prop :=
  OCR1A s = ocr_of (m_currentPos_us s) /\
  m_currentPos_deg s = MicrosecondsToDegrees (m_currentPos_us s) false /\
  m_speed_us_per_ms s = speed_us_per_ms_of (m_speed_deg_per_s s).

(** The position, as the servo and the telemetry see it. *)
Definition same_position (s s' : ServoState) : Prop :=
  m_currentPos_us s' = m_currentPos_us s /\
  m_fCurrentPos_us s' = m_fCurrentPos_us s /\
  m_currentPos_deg s' = m_currentPos_deg s /\
  OCR1A s' = OCR1A s.

(** The three command names. *)
Definition recognised (command : CCommand) : bool :=
  Equals command "camServ_tpos" || Equals command "camServ_spd"
  || Equals command "camServ_inv".

(** An environment in which no command is available. *)
Definition without_command (env : Env) : Env :=
  {| isCommandAvailable := false;
     controlElapsed     := controlElapsed env;
     millis_first       := millis_first env;
     millis_second      := millis_second env;
     telemetryElapsed   := telemetryElapsed env |}.

(** Zero, negative or minus infinity: a speed limit that is not positive. *)
Definition nonpositive (x : float) : bool :=
  match x with
  | S754_zero _ | S754_finite true _ _ | S754_infinity true => true
  | _ => false
  end.

(** The position is the accumulator converted to [uint32_t]. *)
Definition accumulator_in_step (s : ServoState) : Prop :=
  F32.to_uint32 (m_fCurrentPos_us s) = Some (m_currentPos_us s).

(** The wire encoding survives decoding and encoding again. *)
Definition wire_round_trip (v : Z) : bool :=
  match Encode (Decode v) with
  | Some z => z =? v
  | None => false
  end.

(** ** [CCameraServo::Initialize], lines 87-109

    The bit numbers of the timer registers and of the capability, and the
    pin number, come from headers that are not part of this file; they are
    taken as they come. The two [CTimer::Reset] calls act on the timers,
    which are inputs of [Update] here. *)
Record BoardConstants := mkConstants {
  CAMERAMOUNT_PIN              : Z;
  COM1A1                       : Z;
  WGM11                        : Z;
  WGM13                        : Z;
  WGM12                        : Z;
  CS11                         : Z;
  CAMERA_MOUNT_1_AXIS_CAPABLE  : Z
}.

(** The registers of timer 1 besides [OCR1A], the pins configured as
    outputs, and [NConfigManager::m_capabilityBitmask]. *)
Record Board := mkBoard {
  TCCR1A              : Z;
  TCCR1B              : Z;
  ICR1                : Z;
  outputPins          : list Z;
  m_capabilityBitmask : Z
}.

(** [1 << n], for [0 <= n < 15], where the 16-bit [int] of the target does
    not overflow. *)
Definition bit (n : Z) : Z := Z.shiftl 1 n.

Definition Initialize (k : BoardConstants) (b : Board) (s : ServoState)
  : Board * ServoState :=
  ({| TCCR1A := Z.lor 0 (Z.lor (bit (COM1A1 k)) (bit (WGM11 k))) mod 2 ^ 8;
      TCCR1B := Z.lor 0 (Z.lor (Z.lor (bit (WGM13 k)) (bit (WGM12 k)))
                           (bit (CS11 k))) mod 2 ^ 8;
      ICR1 := 40000;
      outputPins := CAMERAMOUNT_PIN k :: outputPins b;
      m_capabilityBitmask :=
        Z.lor (m_capabilityBitmask b) (bit (CAMERA_MOUNT_1_AXIS_CAPABLE k)) |},
   SetServoPosition kNeutralPosition_us s).

(** The controller as its static initialisers leave it (lines 53-67), with
    whatever the compare register holds before [Initialize] runs. *)
Definition power_on (ocr : Z) : ServoState :=
  {| m_targetPos_deg   := kNeutralPosition_deg;
     m_currentPos_deg  := kNeutralPosition_deg;
     m_targetPos_us    := kNeutralPosition_us;
     m_currentPos_us   := kNeutralPosition_us;
     m_fCurrentPos_us  := kZeroPosMicrosecs;
     m_tDelta          := 0;
     m_tLast           := 0;
     m_speed_deg_per_s := kDefaultSpeed;
     m_isInverted      := 0;
     m_speed_us_per_ms := speed_us_per_ms_of kDefaultSpeed;
     OCR1A             := ocr |}.
(** Splits a conjunction of closed facts and evaluates each of them. *)
Ltac split_all := repeat match goal with |- _ /\ _ => split end.
Ltac by_eval :=
  repeat (match goal with
          | |- _ /\ _ => split; [vm_compute; reflexivity|]
          end);
  vm_compute; reflexivity.

(** * Facts on the conversions between binary32 and integers *)

Module F32Facts.

Lemma denom_pos (x : float) : 0 < F32.denom x.
Proof.
  destruct x as [s|s| |s m e]; simpl;
    first [lia | apply Z.pow_pos_nonneg; lia].
Qed.

(** Truncated division brackets: the quotient lies in [lo, hi] exactly
    when the dividend lies strictly between [(lo - 1) * d] and
    [(hi + 1) * d]. *)
Lemma quot_range (n d lo hi : Z) :
  0 < d -> lo <= 0 <= hi ->
  (lo <= n ÷ d <= hi <-> (lo - 1) * d < n < (hi + 1) * d).
Proof.
  intros Hd Hb.
  destruct (Z_lt_le_dec n 0) as [Hn|Hn].
  - replace n with (- (- n)) by lia.
    rewrite Z.quot_opp_l by lia.
    rewrite Z.quot_div_nonneg by lia.
    pose proof (Z.div_mod (- n) d ltac:(lia)) as E.
    pose proof (Z.mod_pos_bound (- n) d Hd) as B.
    split; intros H; nia.
  - rewrite Z.quot_div_nonneg by lia.
    pose proof (Z.div_mod n d ltac:(lia)) as E.
    pose proof (Z.mod_pos_bound n d Hd) as B.
    split; intros H; nia.
Qed.

(** [trunc] is the quotient of the exact value, truncated toward zero. *)
Lemma trunc_quot (x : float) (z : Z) :
  F32.trunc x = Some z <->
  F32.is_finite x = true /\ z = F32.numer x ÷ F32.denom x.
Proof.
  destruct x as [s|s| |s m e]; simpl.
  - split; [intros [= <-]; auto | intros [_ ->]; reflexivity].
  - split; [discriminate | intros [H _]; discriminate].
  - split; [discriminate | intros [H _]; discriminate].
  - assert (E : cond_Zopp s (Z.shiftl (Zpos m) e)
                = cond_Zopp s (Zpos m * 2 ^ Z.max e 0) ÷ 2 ^ Z.max (- e) 0).
    { destruct (Z_lt_le_dec e 0) as [He|He].
      - rewrite (Z.max_r e 0), (Z.max_l (- e) 0) by lia.
        rewrite Z.shiftl_div_pow2 by lia.
        rewrite Z.pow_0_r, Z.mul_1_r.
        assert (Hp : 0 < 2 ^ (- e)) by (apply Z.pow_pos_nonneg; lia).
        destruct s; simpl cond_Zopp.
        + change (Z.neg m) with (- Z.pos m).
          rewrite Z.quot_opp_l by lia.
          rewrite Z.quot_div_nonneg by lia. reflexivity.
        + rewrite Z.quot_div_nonneg by lia. reflexivity.
      - rewrite (Z.max_l e 0), (Z.max_r (- e) 0) by lia.
        rewrite Z.shiftl_mul_pow2 by lia.
        rewrite Z.pow_0_r, Z.quot_1_r. reflexivity. }
    rewrite E.
    split; [intros [= <-]; auto | intros [_ ->]; reflexivity].
Qed.

(** A conversion to an integer type with bounds [lo <= 0 <= hi]. *)
Lemma cast_defined (lo hi : Z) (x : float) (z : Z) :
  lo <= 0 <= hi ->
  match F32.trunc x with
  | Some t => if F32.in_range lo hi t then Some t else None
  | None => None
  end = Some z <->
  F32.is_finite x = true /\
  (lo - 1) * F32.denom x < F32.numer x < (hi + 1) * F32.denom x /\
  z = F32.numer x ÷ F32.denom x.
Proof.
  intros Hb.
  pose proof (quot_range (F32.numer x) (F32.denom x) lo hi (denom_pos x) Hb)
    as Q.
  destruct (F32.trunc x) as [t|] eqn:T.
  - apply trunc_quot in T. destruct T as [Hf ->].
    set (q := F32.numer x ÷ F32.denom x) in *.
    assert (R : F32.in_range lo hi q = true <-> lo <= q <= hi).
    { unfold F32.in_range. rewrite andb_true_iff, !Z.leb_le. tauto. }
    destruct (F32.in_range lo hi q) eqn:B.
    + split.
      * intros [= <-]. split; [exact Hf|]. split; [|reflexivity].
        apply Q, R. reflexivity.
      * intros (_ & _ & ->). reflexivity.
    + split; [discriminate|].
      intros (_ & Hr & _). apply Q, R in Hr. discriminate.
  - split; [discriminate|].
    intros (Hf & _ & _).
    assert (F32.trunc x = Some (F32.numer x ÷ F32.denom x)) as T'
        by (apply trunc_quot; auto).
    congruence.
Qed.

(** [static_cast<uint32_t>] is defined exactly on the finite values
    strictly between -1 and [2^32]. *)
Lemma to_uint32_defined (x : float) (z : Z) :
  F32.to_uint32 x = Some z <->
  F32.is_finite x = true /\
  - F32.denom x < F32.numer x < 2 ^ 32 * F32.denom x /\
  z = F32.numer x ÷ F32.denom x.
Proof.
  unfold F32.to_uint32.
  rewrite (cast_defined 0 (2 ^ 32 - 1) x z) by lia.
  replace (2 ^ 32 - 1 + 1) with (2 ^ 32) by lia.
  replace ((0 - 1) * F32.denom x) with (- F32.denom x) by lia.
  reflexivity.
Qed.

(** [static_cast<int32_t>] is defined exactly on the finite values
    strictly between [-2^31 - 1] and [2^31]. *)
Lemma to_int32_defined (x : float) (z : Z) :
  F32.to_int32 x = Some z <->
  F32.is_finite x = true /\
  (- 2 ^ 31 - 1) * F32.denom x < F32.numer x < 2 ^ 31 * F32.denom x /\
  z = F32.numer x ÷ F32.denom x.
Proof.
  unfold F32.to_int32.
  rewrite (cast_defined (- 2 ^ 31) (2 ^ 31 - 1) x z) by lia.
  replace (2 ^ 31 - 1 + 1) with (2 ^ 31) by lia.
  reflexivity.
Qed.

Lemma opp_involutive (x : float) : F32.opp (F32.opp x) = x.
Proof. destruct x as [s|s| |s m e]; simpl; rewrite ?negb_involutive; auto. Qed.

(** Rounding to nearest even is symmetric: the sign passes through. *)
Lemma binary_round_aux_opp (s : bool) (mx ex : Z) (lx : location) :
  binary_round_aux F32.prec F32.emax (negb s) mx ex lx
  = F32.opp (binary_round_aux F32.prec F32.emax s mx ex lx).
Proof.
  unfold binary_round_aux.
  destruct (shr_fexp F32.prec F32.emax mx ex lx) as [mrs' e'].
  destruct (shr_fexp F32.prec F32.emax _ e' loc_Exact) as [mrs'' e''].
  destruct (shr_m mrs''); [reflexivity | | reflexivity].
  destruct (Z.leb e'' (Z.sub F32.emax F32.prec)); reflexivity.
Qed.

Lemma binary_round_opp (s : bool) (m : positive) (e : Z) :
  binary_round F32.prec F32.emax (negb s) m e
  = F32.opp (binary_round F32.prec F32.emax s m e).
Proof.
  unfold binary_round.
  destruct (shl_align m e _) as [mz ez].
  apply binary_round_aux_opp.
Qed.

Lemma abs_opp (x : float) : F32.abs (F32.opp x) = F32.abs x.
Proof. destruct x; reflexivity. Qed.

Lemma of_Z_opp (v : Z) : v <> 0 -> F32.of_Z (- v) = F32.opp (F32.of_Z v).
Proof.
  destruct v as [|p|p]; intros H; [contradiction| |].
  - exact (binary_round_opp false p 0).
  - change (F32.of_Z (- Z.neg p)) with (binary_round F32.prec F32.emax false p 0).
    change (F32.of_Z (Z.neg p)) with (binary_round F32.prec F32.emax (negb false) p 0).
    rewrite binary_round_opp. symmetry. apply opp_involutive.
Qed.

Lemma mul_opp_l (x y : float) :
  F32.mul (F32.opp x) y = F32.opp (F32.mul x y).
Proof.
  destruct x as [sx|sx| |sx mx ex], y as [sy|sy| |sy my ey];
    try reflexivity;
    try (unfold F32.mul, F32.opp, SFmul, SFopp;
         rewrite <- negb_xorb_l; reflexivity).
  unfold F32.mul, SFmul, F32.opp at 1, SFopp.
  rewrite <- negb_xorb_l. apply binary_round_aux_opp.
Qed.

Lemma abs_binary_normalize_opp (z e : Z) :
  F32.abs (binary_normalize F32.prec F32.emax (- z) e false)
  = F32.abs (binary_normalize F32.prec F32.emax z e false).
Proof.
  destruct z as [|p|p]; [reflexivity| |].
  - change (F32.abs (binary_round F32.prec F32.emax (negb false) p e)
            = F32.abs (binary_round F32.prec F32.emax false p e)).
    rewrite binary_round_opp. apply abs_opp.
  - change (F32.abs (binary_round F32.prec F32.emax false p e)
            = F32.abs (binary_round F32.prec F32.emax (negb false) p e)).
    rewrite binary_round_opp. symmetry. apply abs_opp.
Qed.

(** Rounding a nonnegative mantissa never gives NaN, and keeps the sign. *)
Lemma shr_1_nonneg (mrs : shr_record) :
  0 <= shr_m mrs -> 0 <= shr_m (shr_1 mrs).
Proof.
  destruct mrs as [m r s]. simpl.
  destruct m as [|p|p]; [simpl; lia | | lia].
  intros _. destruct p; simpl; lia.
Qed.

Lemma iter_shr_1_nonneg (p : positive) :
  forall mrs, 0 <= shr_m mrs -> 0 <= shr_m (iter_pos shr_1 p mrs).
Proof.
  induction p as [p IH|p IH|]; intros mrs H; simpl.
  - apply IH, IH, shr_1_nonneg, H.
  - apply IH, IH, H.
  - apply shr_1_nonneg, H.
Qed.

Lemma shr_fexp_nonneg (m e : Z) (l : location) :
  0 <= m -> 0 <= shr_m (fst (shr_fexp F32.prec F32.emax m e l)).
Proof.
  intros H. unfold shr_fexp, shr.
  assert (H0 : 0 <= shr_m (shr_record_of_loc m l))
    by (destruct l as [|[]]; exact H).
  destruct (Z.sub _ e) as [|p|p]; simpl; auto.
  apply iter_shr_1_nonneg, H0.
Qed.

Lemma round_nearest_even_nonneg (m : Z) (l : location) :
  0 <= m -> 0 <= round_nearest_even m l.
Proof.
  intros H. destruct l as [|[]]; simpl; try lia.
  destruct (Z.even m); lia.
Qed.

Lemma binary_round_aux_sign (s : bool) (mx ex : Z) (lx : location) :
  0 <= mx ->
  F32.has_sign s (binary_round_aux F32.prec F32.emax s mx ex lx) = true.
Proof.
  intros H. unfold binary_round_aux.
  pose proof (shr_fexp_nonneg mx ex lx H) as H1.
  destruct (shr_fexp F32.prec F32.emax mx ex lx) as [mrs' e'].
  simpl fst in H1.
  pose proof (shr_fexp_nonneg _ e' loc_Exact
                (round_nearest_even_nonneg _ (loc_of_shr_record mrs') H1))
    as H2.
  destruct (shr_fexp F32.prec F32.emax _ e' loc_Exact) as [mrs'' e''].
  simpl fst in H2.
  destruct (shr_m mrs'') as [|p|p]; [| |lia].
  - simpl. apply eqb_reflx.
  - destruct (Z.leb e'' _); simpl; apply eqb_reflx.
Qed.

Lemma of_Z_sign (n : Z) : 0 <= n -> F32.has_sign false (F32.of_Z n) = true.
Proof.
  intros H. destruct n as [|p|p]; [reflexivity| |lia].
  unfold F32.of_Z, binary_normalize, binary_round.
  destruct (shl_align p 0 _) as [mz ez].
  apply binary_round_aux_sign. lia.
Qed.

(** The quotient of a negative finite number by a number with a clear sign
    bit is negative, zero or minus infinity: it has the sign bit set. *)
Lemma div_negative (mx : positive) (ex : Z) (y : float) :
  F32.has_sign false y = true ->
  F32.has_sign true (F32.div (S754_finite true mx ex) y) = true.
Proof.
  destruct y as [sy|sy| |sy my ey]; simpl; try discriminate;
    destruct sy; try discriminate; intros _; try reflexivity.
  unfold F32.div, SFdiv.
  destruct (SFdiv_core_binary F32.prec F32.emax (Zpos mx) ex (Zpos my) ey)
    as [[mz ez] lz] eqn:E.
  apply binary_round_aux_sign.
  unfold SFdiv_core_binary in E.
  set (m' := match Z.sub (Z.sub ex ey) _ with
             | Zpos _ => Z.shiftl (Zpos mx) _
             | Z0 => Zpos mx
             | Zneg _ => Z0
             end) in E.
  assert (Hm : 0 <= m').
  { unfold m'. destruct (Z.sub (Z.sub ex ey) _); try lia.
    apply Z.shiftl_nonneg. lia. }
  pose proof (Z.div_pos m' (Zpos my) Hm ltac:(lia)) as Hq.
  unfold Z.div in Hq.
  destruct (Z.div_eucl m' (Zpos my)) as [q r].
  injection E as <- _ _. exact Hq.
Qed.

(** Anything with the sign bit set is below a positive number. *)
Lemma ltb_signed_positive (x y : float) :
  F32.has_sign true x = true ->
  F32.ltb (S754_zero false) y = true ->
  F32.ltb x y = true.
Proof.
  destruct x as [sx|sx| |sx mx ex]; simpl; try discriminate;
    destruct sx; try discriminate; intros _;
    destruct y as [sy|sy| |sy my ey]; try discriminate;
    destruct sy; try discriminate; intros _; reflexivity.
Qed.

(** The distance of two floats is the distance of their negations. *)
Lemma abs_sub_opp (a b : float) :
  F32.abs (F32.sub (F32.opp a) (F32.opp b)) = F32.abs (F32.sub a b).
Proof.
  destruct a as [sa|sa| |sa ma ea], b as [sb|sb| |sb mb eb];
    try reflexivity;
    try (destruct sa, sb; reflexivity).
  unfold F32.sub, F32.opp, SFsub, SFopp.
  set (X := Zpos (fst (shl_align ma ea (Z.min ea eb)))).
  set (Y := Zpos (fst (shl_align mb eb (Z.min ea eb)))).
  replace (Z.sub (cond_Zopp (negb sa) X) (cond_Zopp (negb sb) Y))
    with (- Z.sub (cond_Zopp sa X) (cond_Zopp sb Y))
    by (destruct sa, sb; unfold cond_Zopp, negb; lia).
  apply abs_binary_normalize_opp.
Qed.

End F32Facts.

(** * The command handler *)

Lemma Equals_text (command : CCommand) (name : string) :
  Equals command name = true -> m_text command = name.
Proof. unfold Equals. apply String.eqb_eq. Qed.

Lemma HandleCommand_inv (command : CCommand) (s : ServoState) :
  Equals command "camServ_inv" = true ->
  HandleCommand command s =
  if argument1 command =? 1 then
    ret (set_inverted 1 s, [print_F "camServ_inv:1;"])
  else if argument1 command =? 0 then
    ret (set_inverted 0 s, [print_F "camServ_inv:0;"])
  else ret (s, []).
Proof.
  intros H. unfold HandleCommand.
  pose proof (Equals_text _ _ H) as Ht.
  unfold Equals in *. rewrite Ht. reflexivity.
Qed.

(** C7: a [camServ_inv] command whose argument is neither 0 nor 1 leaves the
    whole controller state as it was and prints nothing; with argument 0 or
    1 the state afterwards has [m_isInverted] equal to the argument and
    every other field as before, and the fixed acknowledgement of that
    value is printed. *)
Theorem C7_inversion_command (command : CCommand) (s : ServoState) :
  Equals command "camServ_inv" = true ->
  (argument1 command <> 0 -> argument1 command <> 1 ->
   HandleCommand command s = Some (s, [])) /\
  (forall v ack,
     (v = 0 /\ ack = "camServ_inv:0;") \/ (v = 1 /\ ack = "camServ_inv:1;") ->
     argument1 command = v ->
     exists s',
       HandleCommand command s = Some (s', [print_F ack]) /\
       m_isInverted s' = v /\
       m_targetPos_deg s' = m_targetPos_deg s /\
       m_targetPos_us s' = m_targetPos_us s /\
       m_currentPos_deg s' = m_currentPos_deg s /\
       m_currentPos_us s' = m_currentPos_us s /\
       m_fCurrentPos_us s' = m_fCurrentPos_us s /\
       m_tDelta s' = m_tDelta s /\
       m_tLast s' = m_tLast s /\
       m_speed_deg_per_s s' = m_speed_deg_per_s s /\
       m_speed_us_per_ms s' = m_speed_us_per_ms s /\
       OCR1A s' = OCR1A s).
Proof.
  intros H. rewrite (HandleCommand_inv _ _ H).
  split.
  - intros H0 H1.
    destruct (Z.eqb_spec (argument1 command) 1) as [E|_]; [contradiction|].
    destruct (Z.eqb_spec (argument1 command) 0) as [E|_]; [contradiction|].
    reflexivity.
  - intros v ack [[-> ->]|[-> ->]] ->.
    + exists (set_inverted 0 s). repeat split.
    + exists (set_inverted 1 s). repeat split.
Qed.

Lemma C7_inversion_command_witness :
  Equals (camServ_inv 2) "camServ_inv" = true /\
  HandleCommand (camServ_inv 2) initial_state = Some (initial_state, []) /\
  (exists s',
     HandleCommand (camServ_inv 1) initial_state
     = Some (s', [print_F "camServ_inv:1;"]) /\
     m_isInverted s' = 1 /\ m_targetPos_us s' = 1487) /\
  (exists s',
     HandleCommand (camServ_inv 0) inverted_at_10
     = Some (s', [print_F "camServ_inv:0;"]) /\
     m_isInverted s' = 0 /\ m_targetPos_us s' = 1391).
Proof.
  split; [reflexivity|]. split.
  - apply (C7_inversion_command (camServ_inv 2) initial_state);
      [reflexivity | discriminate | discriminate].
  - split.
    + destruct (proj2 (C7_inversion_command (camServ_inv 1) initial_state
                         eq_refl)
                  1 "camServ_inv:1;" (or_intror (conj eq_refl eq_refl))
                  eq_refl)
        as (s' & HC & Hi & _ & Hus & _).
      exists s'. split; [exact HC|]. split; [exact Hi | exact Hus].
    + destruct (proj2 (C7_inversion_command (camServ_inv 0) inverted_at_10
                         eq_refl)
                  0 "camServ_inv:0;" (or_introl (conj eq_refl eq_refl))
                  eq_refl)
        as (s' & HC & Hi & _ & Hus & _).
      exists s'. split; [exact HC|]. split; [exact Hi | exact Hus].
Defined.

(** The same through [Update], when neither timer has elapsed. *)
Lemma Update_ignores_bad_inversion (env : Env) (arg : Z) (s : ServoState) :
  isCommandAvailable env = true ->
  controlElapsed env = false -> telemetryElapsed env = false ->
  arg <> 0 -> arg <> 1 ->
  Update env (camServ_inv arg) s = Some (s, []).
Proof.
  intros Hc Ht Hp H0 H1. unfold Update.
  rewrite Hc, Ht, Hp, HandleCommand_inv by reflexivity.
  change (argument1 (camServ_inv arg)) with arg.
  destruct (Z.eqb_spec arg 1) as [E|_]; [contradiction|].
  destruct (Z.eqb_spec arg 0) as [E|_]; [contradiction|].
  reflexivity.
Qed.

(** A target command establishes the invariant, whatever the state. *)
Lemma tpos_in_sync (command : CCommand) (s s' : ServoState)
      (out : list SerialOut) :
  Equals command "camServ_tpos" = true ->
  HandleCommand command s = Some (s', out) ->
  target_in_sync s'.
Proof.
  intros H. unfold HandleCommand. rewrite H.
  unfold target_in_sync.
  destruct (DegreesToMicroseconds _ _) as [us|] eqn:E; simpl; [|discriminate].
  intros [= <- _]. simpl. exact E.
Qed.

(** A speed command keeps it. *)
Lemma spd_in_sync (command : CCommand) (s s' : ServoState)
      (out : list SerialOut) :
  Equals command "camServ_spd" = true ->
  HandleCommand command s = Some (s', out) ->
  target_in_sync s -> target_in_sync s'.
Proof.
  intros H. unfold HandleCommand.
  pose proof (Equals_text _ _ H) as Ht.
  unfold Equals in *. rewrite Ht. simpl.
  intros [= <- _]. exact (fun x => x).
Qed.

(** C4: after a target of 10 degrees and then a valid inversion command the
    stored pulse width is still 1582, the image of 10 degrees without
    inversion, while the flag is set and the image under the stored flag is
    1391: the inversion branch does not recompute [m_targetPos_us]. *)
Theorem C4_inversion_leaves_target_stale :
  exists s,
    inverted_after_target = Some s /\
    m_isInverted s = 1 /\
    m_targetPos_deg s = Decode 10000 /\
    m_targetPos_us s = 1582 /\
    DegreesToMicroseconds (m_targetPos_deg s) (negb (m_isInverted s =? 0))
    = Some 1391 /\
    ~ target_in_sync s.
Proof.
  eexists. split; [vm_compute; reflexivity|].
  split_all; try (vm_compute; reflexivity).
  unfold target_in_sync. vm_compute. discriminate.
Qed.

(** * The position update *)

(** The three outcomes of [PositionUpdate], by branch. *)
Lemma PositionUpdate_NoMove (tDelta : Z) (s : ServoState) :
  tick_branch s tDelta = NoMove -> PositionUpdate tDelta s = Some s.
Proof. unfold PositionUpdate. intros ->. reflexivity. Qed.

Lemma PositionUpdate_Snap (tDelta : Z) (s : ServoState) :
  tick_branch s tDelta = Snap ->
  PositionUpdate tDelta s = Some (publish (snap_move s)).
Proof. unfold PositionUpdate. intros ->. reflexivity. Qed.

Lemma PositionUpdate_Step (tDelta : Z) (s : ServoState) :
  tick_branch s tDelta = Step ->
  PositionUpdate tDelta s = (s' <- step_move s ;; ret (publish s')).
Proof. unfold PositionUpdate. intros ->. reflexivity. Qed.

Lemma tick_branch_NoMove (tDelta : Z) (s : ServoState) :
  tick_branch s tDelta = NoMove <-> at_target s.
Proof.
  unfold tick_branch, at_target.
  destruct (Z.eqb_spec (m_currentPos_us s) (m_targetPos_us s)) as [E|E].
  - tauto.
  - destruct (snap_test s tDelta); split; (discriminate || contradiction).
Qed.

Lemma run_ticks_S (n : nat) (tDelta : Z) (s : ServoState) :
  run_ticks (S n) tDelta s
  = (s' <- PositionUpdate tDelta s ;; run_ticks n tDelta s').
Proof. reflexivity. Qed.

(** Once at the target the position holds. *)
Lemma at_target_stable (n : nat) (tDelta : Z) (s : ServoState) :
  at_target s -> run_ticks n tDelta s = Some s.
Proof.
  intros H. induction n as [|n IH]; [reflexivity|].
  rewrite run_ticks_S.
  rewrite PositionUpdate_NoMove by (apply tick_branch_NoMove; exact H).
  exact IH.
Qed.

(** A state that one update maps to itself is where every run stays. *)
Lemma run_ticks_fixed (n : nat) (tDelta : Z) (s : ServoState) :
  PositionUpdate tDelta s = Some s -> run_ticks n tDelta s = Some s.
Proof.
  intros H. induction n as [|n IH]; [reflexivity|].
  rewrite run_ticks_S, H. exact IH.
Qed.

(** Line 175 with a negative error: whatever its magnitude, the elapsed
    time and the (positive) speed limit, the direct move is taken. *)
Lemma negative_error_always_snaps (s : ServoState) (tDelta : Z) :
  ~ at_target s ->
  F32.is_finite (tick_error s) = true ->
  F32.is_negative (tick_error s) = true ->
  0 <= tDelta ->
  F32.ltb (S754_zero false) (m_speed_us_per_ms s) = true ->
  tick_branch s tDelta = Snap.
Proof.
  intros Hn Hf Hneg Hd Hs. unfold tick_branch.
  destruct (Z.eqb_spec (m_currentPos_us s) (m_targetPos_us s)) as [E|_];
    [contradiction|].
  unfold snap_test.
  destruct (tick_error s) as [sg|sg| |sg m e]; try discriminate.
  destruct sg; [|discriminate].
  rewrite F32Facts.ltb_signed_positive; [reflexivity| |exact Hs].
  apply F32Facts.div_negative, F32Facts.of_Z_sign, Hd.
Qed.

(** Hence from above the target an update never crosses it: it lands on
    it. *)
Lemma negative_error_lands_on_target
      (s s' : ServoState) (tDelta : Z) :
  ~ at_target s ->
  F32.is_finite (tick_error s) = true ->
  F32.is_negative (tick_error s) = true ->
  0 <= tDelta ->
  F32.ltb (S754_zero false) (m_speed_us_per_ms s) = true ->
  PositionUpdate tDelta s = Some s' ->
  m_currentPos_us s' = m_targetPos_us s /\ at_target s'.
Proof.
  intros Hn Hf Hneg Hd Hs HU.
  rewrite (PositionUpdate_Snap tDelta s) in HU
    by (apply negative_error_always_snaps; assumption).
  injection HU as <-. split; reflexivity.
Qed.

(** Line 175 with an error that is not negative: the test is the one the
    specification words with the magnitude of the error. *)
Lemma nonnegative_error_test (s : ServoState) (tDelta : Z) :
  F32.is_negative (tick_error s) = false ->
  snap_test s tDelta = snap_test_abs s tDelta.
Proof.
  unfold snap_test, snap_test_abs.
  destruct (tick_error s) as [sg|sg| |sg m e]; try reflexivity;
    destruct sg; try discriminate; try reflexivity.
  intros _.
  destruct (F32.of_Z tDelta) as [sy|sy| |sy my ey]; try reflexivity;
    destruct sy; try reflexivity;
    destruct (m_speed_us_per_ms s) as [t|t| |t m' e']; reflexivity.
Qed.

(** C1: with the target 286 us below the position, a 5 ms update at the
    default speed of 50 degrees per second takes the direct move, although
    the magnitude of the error over the elapsed time is not below the speed
    limit: line 175 compares the signed quotient. *)
Theorem C1_negative_error_snaps :
  exists s s',
    neutral_to_minus_30 = Some s /\
    m_currentPos_us s = 1487 /\ m_targetPos_us s = 1201 /\
    snap_test_abs s 5 = false /\
    tick_branch s 5 = Snap /\
    PositionUpdate 5 s = Some s' /\
    m_currentPos_us s' = 1201.
Proof.
  do 2 eexists.
  split; [vm_compute; reflexivity|].
  by_eval.
Qed.

(** C2: at 210 degrees per second, from 1487 us below the target 1772 us, a
    5 ms update moves the position to 2057 us, above the target. *)
Theorem C2_overshoot_at_high_speed :
  exists s s',
    fast_to_30 = Some s /\
    m_currentPos_us s = 1487 /\ m_targetPos_us s = 1772 /\
    F32.ltb (S754_zero false) (m_speed_us_per_ms s) = true /\
    tick_branch s 5 = Step /\
    PositionUpdate 5 s = Some s' /\
    m_currentPos_us s' = 2057 /\ m_targetPos_us s' = 1772.
Proof.
  do 2 eexists.
  split; [vm_compute; reflexivity|].
  by_eval.
Qed.

(** C3: at 0.001 degrees per second with the target 4 us above the
    position, the step [m_speed_us_per_ms * error] is below half a unit in
    the last place of [m_fCurrentPos_us]; a 5 ms update leaves the state as
    it is, and no number of updates reaches the target. *)
Theorem C3_stuck_below_target :
  exists s,
    slowest_to_half = Some s /\
    F32.ltb (S754_zero false) (m_speed_us_per_ms s) = true /\
    m_currentPos_us s = 1487 /\ m_targetPos_us s = 1491 /\
    forall n, run_ticks n 5 s = Some s /\ ~ at_target s.
Proof.
  eexists. split; [vm_compute; reflexivity|].
  do 3 (split; [vm_compute; reflexivity|]).
  intros n. split.
  - apply run_ticks_fixed. vm_compute. reflexivity.
  - unfold at_target. vm_compute. discriminate.
Qed.

(** The same defect at a tenth of a degree per second: after 4500 updates of
    5 ms the accumulator rests at [12213748 * 2^-13], about 1490.94 us, and
    the position one microsecond short of the target, for good. *)
Lemma stuck_at_a_tenth_degree_per_second :
  exists s s',
    slow_to_half = Some s /\
    run_ticks 4500 5 s = Some s' /\
    m_currentPos_us s' = 1490 /\ m_targetPos_us s' = 1491 /\
    m_fCurrentPos_us s' = S754_finite false 12213748 (-13) /\
    forall n, run_ticks n 5 s' = Some s'.
Proof.
  do 2 eexists.
  do 5 (split; [vm_compute; reflexivity|]).
  intros n. apply run_ticks_fixed. vm_compute. reflexivity.
Qed.

(** At the default speed the 285 us to a target of 30 degrees take nine
    updates of 5 ms, and the position then holds. *)
Lemma default_speed_reaches_30_degrees :
  exists s s',
    default_to_30 = Some s /\
    run_ticks 9 5 s = Some s' /\
    m_currentPos_us s' = 1772 /\ at_target s' /\
    forall n, run_ticks n 5 s' = Some s'.
Proof.
  do 2 eexists.
  do 3 (split; [vm_compute; reflexivity|]).
  assert (H : forall s', m_currentPos_us s' = m_targetPos_us s' -> at_target s')
    by (intros ? E; exact E).
  split; [apply H; vm_compute; reflexivity|].
  intros n. apply at_target_stable, H. vm_compute. reflexivity.
Qed.

(** ** Zero elapsed time *)

(** [m_tDelta] is the difference of two readings of [millis()] modulo
    [2^32]; it is 0 when the clock still shows [m_tLast]. *)
Lemma ControlTick_unfold (now_first now_second : Z) (s : ServoState) :
  ControlTick now_first now_second s
  = (s' <- PositionUpdate ((now_first - m_tLast s) mod 2 ^ 32)
             (set_tDelta ((now_first - m_tLast s) mod 2 ^ 32) s) ;;
     ret (set_tLast now_second s')).
Proof. reflexivity. Qed.

Lemma ControlTick_same_millisecond (now_second : Z) (s : ServoState) :
  ControlTick (m_tLast s) now_second s
  = (s' <- PositionUpdate 0 (set_tDelta 0 s) ;;
     ret (set_tLast now_second s')).
Proof.
  rewrite ControlTick_unfold.
  replace (m_tLast s - m_tLast s) with 0 by lia. reflexivity.
Qed.

(** The quotient of line 175 when [m_tDelta] is 0. *)
Lemma div_by_zero (x : float) :
  F32.div x (F32.of_Z 0) =
  match x with
  | S754_finite s _ _ | S754_infinity s => S754_infinity s
  | S754_zero _ | S754_nan => S754_nan
  end.
Proof.
  destruct x as [s|s| |s m e]; simpl; try reflexivity;
    destruct s; reflexivity.
Qed.

(** The block of lines 169-201 has no test of [m_tDelta] of its own: with
    [m_tDelta = 0] away from the target it would evaluate the quotient
    [error / 0]. That this does not happen is the gate's doing, below. *)
Lemma zero_dt_quotient (s : ServoState) :
  ~ at_target s ->
  snap_test s 0
  = F32.is_negative (tick_error s)
    && F32.ltb (S754_infinity true) (m_speed_us_per_ms s) /\
  tick_branch s 0 = (if snap_test s 0 then Snap else Step).
Proof.
  intros H. split.
  - unfold snap_test. rewrite div_by_zero.
    destruct (tick_error s) as [sg|sg| |sg m e]; try reflexivity;
      destruct sg; try reflexivity;
      destruct (m_speed_us_per_ms s) as [t|t| |t m' e']; try reflexivity;
      destruct t; reflexivity.
  - unfold tick_branch.
    destruct (Z.eqb_spec (m_currentPos_us s) (m_targetPos_us s)) as [E|_];
      [contradiction | reflexivity].
Qed.












(** ** The position in degrees *)

Lemma publish_degrees (s : ServoState) :
  m_currentPos_deg (publish s)
  = MicrosecondsToDegrees (m_currentPos_us (publish s)) false.
Proof. reflexivity. Qed.

Lemma MicrosecondsToDegrees_inverted (us : Z) :
  MicrosecondsToDegrees us false = F32.opp (MicrosecondsToDegrees us true).
Proof.
  unfold MicrosecondsToDegrees. symmetry. apply F32Facts.opp_involutive.
Qed.

(** An update changes neither the target nor the settings. *)
Lemma PositionUpdate_keeps_target (tDelta : Z) (s s' : ServoState) :
  PositionUpdate tDelta s = Some s' ->
  m_targetPos_us s' = m_targetPos_us s /\
  m_targetPos_deg s' = m_targetPos_deg s /\
  m_isInverted s' = m_isInverted s /\
  m_speed_us_per_ms s' = m_speed_us_per_ms s.
Proof.
  unfold PositionUpdate.
  destruct (tick_branch s tDelta).
  - intros [= <-]. repeat split.
  - intros [= <-]. repeat split.
  - unfold step_move.
    destruct (F32.to_uint32 _) as [us|]; [|discriminate].
    intros [= <-]. repeat split.
Qed.

(** An update that moves ends with [publish]. *)
Lemma PositionUpdate_publishes (tDelta : Z) (s s' : ServoState) :
  ~ at_target s ->
  PositionUpdate tDelta s = Some s' ->
  exists s1, s' = publish s1.
Proof.
  intros Hn HU. unfold PositionUpdate in HU.
  destruct (tick_branch s tDelta) eqn:B.
  - apply tick_branch_NoMove in B. contradiction.
  - injection HU as <-. eexists. reflexivity.
  - destruct (step_move s) as [s1|]; [|discriminate].
    injection HU as <-. eexists. reflexivity.
Qed.

(** ** Telemetry encoding *)

Lemma Encode_truncates (v : float) (z : Z) :
  Encode v = Some z <->
  F32.is_finite (F32.mul v f1000) = true /\
  (- 2 ^ 31 - 1) * F32.denom (F32.mul v f1000)
    < F32.numer (F32.mul v f1000)
    < 2 ^ 31 * F32.denom (F32.mul v f1000) /\
  z = F32.numer (F32.mul v f1000) ÷ F32.denom (F32.mul v f1000).
Proof. unfold Encode. apply F32Facts.to_int32_defined. Qed.

Lemma all_between_spec (P : Z -> bool) (fuel : nat) :
  forall lo hi,
    all_between fuel lo hi P = true ->
    forall v, lo <= v <= hi -> P v = true.
Proof.
  induction fuel as [|fuel IH]; intros lo hi H v Hv; simpl in H;
    destruct (Z.ltb_spec hi lo) as [Hlt|Hge]; try lia; try discriminate.
  apply andb_true_iff in H. destruct H as [H H2].
  apply andb_true_iff in H. destruct H as [Hm H1].
  set (mid := (lo + hi) / 2) in *.
  destruct (Z.compare_spec v mid) as [E|L|G].
  - subst v. exact Hm.
  - apply (IH lo (mid - 1) H1). lia.
  - apply (IH (mid + 1) hi H2). lia.
Qed.

(** On every pulse width of 0 to 3000 us the truncation does not show: the
    angle times 1000 lies just above a whole number. *)
Lemma Encode_agrees_on_servo_range :
  all_between 12 0 3000 Encode_agrees = true.
Proof. vm_compute. reflexivity. Qed.

(** C8, as the code has it: the telemetry line carries the product
    [m_currentPos_deg * 1000.0f] truncated toward zero (the quotient of its
    exact numerator by its denominator), and is defined when that lies in
    the range of [int32_t]. For the angle of every pulse width from 0 to
    3000 us this is also the nearest integer. *)
Theorem C8_telemetry_truncates (s : ServoState) :
  (forall out,
     Telemetry s = Some out <->
     exists z,
       out = [print_F "camServ_pos:"; print_int z; println_char ";"%char] /\
       F32.is_finite (F32.mul (m_currentPos_deg s) f1000) = true /\
       (- 2 ^ 31 - 1) * F32.denom (F32.mul (m_currentPos_deg s) f1000)
         < F32.numer (F32.mul (m_currentPos_deg s) f1000)
         < 2 ^ 31 * F32.denom (F32.mul (m_currentPos_deg s) f1000) /\
       z = F32.numer (F32.mul (m_currentPos_deg s) f1000)
           ÷ F32.denom (F32.mul (m_currentPos_deg s) f1000)) /\
  (forall us,
     0 <= us <= 3000 ->
     m_currentPos_deg s = MicrosecondsToDegrees us false ->
     Encode (m_currentPos_deg s) = Encode_rounding (m_currentPos_deg s)).
Proof.
  split.
  - intros out. unfold Telemetry. split.
    + destruct (Encode (m_currentPos_deg s)) as [z|] eqn:E; [|discriminate].
      intros [= <-]. exists z. split; [reflexivity|].
      apply Encode_truncates. exact E.
    + intros (z & -> & H). apply Encode_truncates in H. rewrite H.
      reflexivity.
  - intros us Hus ->.
    pose proof (all_between_spec _ _ _ _ Encode_agrees_on_servo_range us Hus)
      as H.
    unfold Encode_agrees in H.
    destruct (Encode _) as [a|]; [|discriminate].
    destruct (Encode_rounding _) as [b|]; [|discriminate].
    apply Z.eqb_eq in H. congruence.
Qed.

Lemma C8_telemetry_truncates_witness :
  0 <= 1500 <= 3000 /\
  Encode (MicrosecondsToDegrees 1500 false)
  = Encode_rounding (MicrosecondsToDegrees 1500 false).
Proof.
  split; [lia|].
  exact (proj2 (C8_telemetry_truncates
                  (set_current_deg (MicrosecondsToDegrees 1500 false)
                     initial_state))
           1500 ltac:(lia) eq_refl).
Defined.

(** C8, counterexample: after [camServ_tpos:4098150;] seventeen 5 ms updates
    bring the position to the target 40517 us; the angle times 1000 is then
    4098150.5, the telemetry line carries 4098150 and rounding gives
    4098151. Smaller still: 0.0005 encodes as 0 and rounds to 1. *)
Lemma C8_encode_is_not_rounding :
  (exists s s',
     after_commands [camServ_tpos 4098150] initial_state = Some s /\
     run_ticks 17 5 s = Some s' /\
     m_currentPos_us s' = 40517 /\ m_targetPos_us s' = 40517 /\
     Telemetry s'
     = Some [print_F "camServ_pos:"; print_int 4098150; println_char ";"%char]
     /\ Encode_rounding (m_currentPos_deg s') = Some 4098151) /\
  Encode (F32.lit 1 2000) = Some 0 /\
  Encode_rounding (F32.lit 1 2000) = Some 1.
Proof.
  split.
  - do 2 eexists. by_eval.
  - by_eval.
Qed.

(** ** The unit converter *)

Lemma Decode_opp (v : Z) : v <> 0 -> Decode (- v) = F32.opp (Decode v).
Proof.
  intros H. unfold Decode. rewrite (F32Facts.of_Z_opp v H).
  apply F32Facts.mul_opp_l.
Qed.

(** Inversion symmetry: the inverted conversions of an angle are the plain
    conversions of its negation, and the round trip errors agree. *)
Lemma round_trip_error_inverted (v : Z) :
  v <> 0 ->
  round_trip_error (Decode v) true = round_trip_error (Decode (- v)) false.
Proof.
  intros H. rewrite (Decode_opp v H).
  unfold round_trip_error, round_trip.
  change (DegreesToMicroseconds (Decode v) true)
    with (DegreesToMicroseconds (F32.opp (Decode v)) false).
  destruct (DegreesToMicroseconds (F32.opp (Decode v)) false) as [us|];
    [|reflexivity].
  unfold bind.
  change (MicrosecondsToDegrees us true)
    with (F32.opp (MicrosecondsToDegrees us false)).
  rewrite <- (F32Facts.opp_involutive (Decode v)) at 1.
  rewrite F32Facts.abs_sub_opp. reflexivity.
Qed.

(** The round trip without inversion, checked on every thousandth of a
    degree of [-97.019 .. 97.019] degrees. *)
Lemma round_trip_checked :
  all_between 18 (- one_unit_travel) one_unit_travel
    (round_trip_within_unit false)
  = true.
Proof. vm_compute. reflexivity. Qed.

Lemma round_trip_on_one_unit_travel (v : Z) (isInverted : bool) :
  - one_unit_travel <= v <= one_unit_travel ->
  round_trip_within_unit isInverted v = true.
Proof.
  intros Hv.
  destruct isInverted.
  - destruct (Z.eq_dec v 0) as [->|Hz]; [vm_compute; reflexivity|].
    unfold round_trip_within_unit.
    rewrite (round_trip_error_inverted v Hz).
    apply (all_between_spec _ _ _ _ round_trip_checked (- v)). lia.
  - apply (all_between_spec _ _ _ _ round_trip_checked v Hv).
Qed.

Lemma round_trip_on_travel (v : Z) (isInverted : bool) :
  - checked_travel <= v <= checked_travel ->
  round_trip_within_unit isInverted v = true.
Proof.
  intros Hv. apply round_trip_on_one_unit_travel.
  unfold checked_travel, one_unit_travel in *. lia.
Qed.

(** C9, as the code has it: the conversion to pulse width truncates to whole
    microseconds, so the round trip gives back the angle of the truncated
    pulse width, not the angle. The angles that the code converts are those
    that the wire encodes (lines 126-129), [Decode v] for an integer [v] of
    thousandths of a degree. For every such angle from -97.019 to 97.019
    degrees and for both inversion states, both conversions are defined and
    the round trip differs from the angle by at most one pulse-width unit,
    [kDegPerMicrosec] (0.105) degrees. The interval is the largest for
    which this holds in both inversion states: the distance exceeds the
    unit at -97.020 degrees not inverted, and at 97.020 degrees inverted. *)
Theorem C9_round_trip_within_one_unit (v : Z) (isInverted : bool) :
  -97019 <= v <= 97019 ->
  exists us err,
    DegreesToMicroseconds (Decode v) isInverted = Some us /\
    round_trip (Decode v) isInverted
    = Some (MicrosecondsToDegrees us isInverted) /\
    round_trip_error (Decode v) isInverted = Some err /\
    F32.leb err kDegPerMicrosec = true.
Proof.
  intros Hv.
  pose proof (round_trip_on_one_unit_travel v isInverted Hv) as H.
  unfold round_trip_within_unit, round_trip_error, round_trip in *.
  destruct (DegreesToMicroseconds (Decode v) isInverted) as [us|];
    [|discriminate].
  exists us. eexists. repeat split. exact H.
Qed.

Lemma C9_round_trip_within_one_unit_witness :
  (-97019 <= 10000 <= 97019 /\
   exists us err,
     DegreesToMicroseconds (Decode 10000) false = Some us /\
     round_trip (Decode 10000) false
     = Some (MicrosecondsToDegrees us false) /\
     round_trip_error (Decode 10000) false = Some err /\
     F32.leb err kDegPerMicrosec = true) /\
  (-97019 <= -97019 <= 97019 /\
   exists us err,
     DegreesToMicroseconds (Decode (-97019)) true = Some us /\
     round_trip (Decode (-97019)) true
     = Some (MicrosecondsToDegrees us true) /\
     round_trip_error (Decode (-97019)) true = Some err /\
     F32.leb err kDegPerMicrosec = true).
Proof.
  split.
  - split; [lia|].
    apply (C9_round_trip_within_one_unit 10000 false). lia.
  - split; [lia|].
    apply (C9_round_trip_within_one_unit (-97019) true). lia.
Defined.

(** C9, counterexample: a tenth of a degree converts to the neutral pulse
    width 1487 us, and back to zero degrees: the round trip loses the whole
    angle, a hundred times the tolerance. Inverted, it converts to 1486 us
    and comes back outside the tolerance as well. Nor does the distance
    stay within one pulse-width unit for every angle: -97.020 degrees
    converts to 562 us and comes back at a distance above [kDegPerMicrosec],
    and so does 97.020 degrees inverted. *)
Lemma C9_round_trip_loses_a_tenth_degree :
  Decode 100 = F32.lit 1 10 /\
  DegreesToMicroseconds (Decode 100) false = Some 1487 /\
  DegreesToMicroseconds (Decode 100) true = Some 1486 /\
  round_trip (Decode 100) false = Some (S754_zero false) /\
  round_trip_error (Decode 100) false = Some (F32.lit 1 10) /\
  F32.leb (F32.lit 1 10) round_trip_tolerance = false /\
  (exists err, round_trip_error (Decode 100) true = Some err /\
               F32.leb err round_trip_tolerance = false) /\
  DegreesToMicroseconds (Decode (-97020)) false = Some 562 /\
  DegreesToMicroseconds (Decode 97020) true = Some 562 /\
  kDegPerMicrosec = S754_finite false 14092862 (-27) /\
  round_trip_error (Decode (-97020)) false
  = Some (S754_finite false 14093312 (-27)) /\
  round_trip_error (Decode 97020) true
  = Some (S754_finite false 14093312 (-27)) /\
  F32.leb (S754_finite false 14093312 (-27)) kDegPerMicrosec = false.
Proof.
  do 6 (split; [vm_compute; reflexivity|]).
  split; [eexists; by_eval|].
  by_eval.
Qed.

(** C6, as the code has it: an update that moves the position recomputes
    [m_currentPos_deg] from [m_currentPos_us] as if not inverted, whatever
    [m_isInverted] holds, and leaves the flag as it is. Once the position is
    at the target, the stored angle is therefore the exact negation of the
    angle [r] that the inverted conversion gives the target pulse width; for
    a target commanded while inverted, between -45 and 45 degrees, [r] is
    within one pulse-width unit, [kDegPerMicrosec] (0.105) degrees, of the
    commanded angle. *)
Theorem C6_degrees_ignore_inversion (tDelta : Z) (s s' : ServoState) :
  ~ at_target s ->
  PositionUpdate tDelta s = Some s' ->
  m_isInverted s' = m_isInverted s /\
  m_currentPos_deg s' = MicrosecondsToDegrees (m_currentPos_us s') false /\
  (at_target s' ->
   m_currentPos_deg s'
   = F32.opp (MicrosecondsToDegrees (m_targetPos_us s') true) /\
   forall v,
     -45000 <= v <= 45000 ->
     m_isInverted s <> 0 -> target_in_sync s -> m_targetPos_deg s = Decode v ->
     F32.leb
       (F32.abs (F32.sub (MicrosecondsToDegrees (m_targetPos_us s') true)
                   (m_targetPos_deg s')))
       kDegPerMicrosec = true).
Proof.
  intros Hn HU.
  destruct (PositionUpdate_keeps_target _ _ _ HU) as (Hus & Hdeg & Hi & _).
  destruct (PositionUpdate_publishes _ _ _ Hn HU) as (s1 & ->).
  split; [exact Hi|]. split; [apply publish_degrees|].
  intros Ht. split.
  - rewrite publish_degrees, Ht. apply MicrosecondsToDegrees_inverted.
  - intros v Hv Hinv Hsync Hd.
    rewrite Hus, Hdeg, Hd.
    unfold target_in_sync in Hsync. rewrite Hd in Hsync.
    destruct (Z.eqb_spec (m_isInverted s) 0) as [E|_]; [contradiction|].
    simpl negb in Hsync.
    pose proof (round_trip_on_travel v true Hv) as H.
    unfold round_trip_within_unit, round_trip_error, round_trip in H.
    rewrite Hsync in H. exact H.
Qed.

Lemma C6_degrees_ignore_inversion_witness :
  inverted_to_10 = Some inverted_at_10 /\
  ~ at_target inverted_at_10 /\
  PositionUpdate 5 inverted_at_10 = Some (publish (snap_move inverted_at_10)) /\
  m_isInverted (publish (snap_move inverted_at_10)) = 1 /\
  m_currentPos_deg (publish (snap_move inverted_at_10))
  = MicrosecondsToDegrees 1391 false /\
  F32.leb
    (F32.abs (F32.sub (MicrosecondsToDegrees 1391 true) (Decode 10000)))
    kDegPerMicrosec = true.
Proof.
  split; [vm_compute; reflexivity|].
  assert (Hn : ~ at_target inverted_at_10)
    by (unfold at_target; vm_compute; discriminate).
  assert (HU : PositionUpdate 5 inverted_at_10
               = Some (publish (snap_move inverted_at_10)))
    by (vm_compute; reflexivity).
  split; [exact Hn|]. split; [exact HU|].
  pose proof (C6_degrees_ignore_inversion 5 _ _ Hn HU) as (Hi & Hd & Hc).
  split; [exact Hi|]. split; [exact Hd|].
  refine (proj2 (Hc eq_refl) 10000 _ _ _ eq_refl).
  - lia.
  - discriminate.
  - unfold target_in_sync. vm_compute. reflexivity.
Defined.

(** C6, counterexample: inverted, with the commanded target exactly 10
    degrees, one 5 ms update brings the position to the target pulse width
    1391 us; the stored angle is then not the negation of the commanded
    angle, and the telemetry value is -10080, not -10000. *)
Lemma C6_not_the_negated_target :
  exists s s',
    inverted_to_10 = Some s /\
    m_isInverted s = 1 /\
    m_targetPos_deg s = F32.of_Z 10 /\
    PositionUpdate 5 s = Some s' /\
    m_currentPos_us s' = m_targetPos_us s' /\
    F32.eqb (m_currentPos_deg s') (F32.opp (m_targetPos_deg s')) = false /\
    Encode (m_currentPos_deg s') = Some (-10080) /\
    Encode (F32.opp (m_targetPos_deg s')) = Some (-10000).
Proof.
  do 2 eexists.
  split; [vm_compute; reflexivity|].
  by_eval.
Qed.

Lemma DegreesToMicroseconds_pulse (degreesIn : float) (isInverted : bool) :
  DegreesToMicroseconds degreesIn isInverted
  = F32.to_uint32 (pulse_of_degrees degreesIn isInverted).
Proof. reflexivity. Qed.

(** C10, as the code has it: the conversion is defined exactly for the
    angles whose linear image, computed in binary32, is finite and lies
    strictly between -1 and [2^32]; the result is then that image truncated
    toward zero. This covers every angle that the wire encodes between -45
    and 45 degrees, in both inversion states. *)
Theorem C10_conversion_defined_iff (degreesIn : float) (isInverted : bool) :
  (forall us,
     DegreesToMicroseconds degreesIn isInverted = Some us <->
     F32.is_finite (pulse_of_degrees degreesIn isInverted) = true /\
     - F32.denom (pulse_of_degrees degreesIn isInverted)
       < F32.numer (pulse_of_degrees degreesIn isInverted)
       < 2 ^ 32 * F32.denom (pulse_of_degrees degreesIn isInverted) /\
     us = F32.numer (pulse_of_degrees degreesIn isInverted)
          ÷ F32.denom (pulse_of_degrees degreesIn isInverted)) /\
  (forall v,
     -45000 <= v <= 45000 -> degreesIn = Decode v ->
     exists us, DegreesToMicroseconds degreesIn isInverted = Some us).
Proof.
  split.
  - intros us. rewrite DegreesToMicroseconds_pulse.
    apply F32Facts.to_uint32_defined.
  - intros v Hv ->.
    pose proof (round_trip_on_travel v isInverted Hv) as H.
    unfold round_trip_within_unit, round_trip_error, round_trip in H.
    destruct (DegreesToMicroseconds (Decode v) isInverted) as [us|];
      [|discriminate].
    exists us. reflexivity.
Qed.

Lemma C10_conversion_defined_iff_witness :
  -45000 <= 30000 <= 45000 /\
  exists us, DegreesToMicroseconds (Decode 30000) true = Some us.
Proof.
  split; [lia|].
  exact (proj2 (C10_conversion_defined_iff (Decode 30000) true)
           30000 ltac:(lia) eq_refl).
Defined.

(** C10, counterexample: the wire value -200000 decodes to the finite angle
    [-13107201 * 2^-16], just below -200 degrees; its linear image is about
    -417.8, and the conversion to [uint32_t] is undefined; the command
    [camServ_tpos:-200000;] reaches it. *)
Lemma C10_undefined_below_zero :
  F32.is_finite (Decode (-200000)) = true /\
  Decode (-200000) = S754_finite true 13107201 (-16) /\
  F32.trunc (pulse_of_degrees (Decode (-200000)) false) = Some (-417) /\
  DegreesToMicroseconds (Decode (-200000)) false = None /\
  HandleCommand (camServ_tpos (-200000)) initial_state = None.
Proof. by_eval. Qed.

(** * Further properties of the controller *)

(** ** Commands *)

Lemma HandleCommand_unrecognised (command : CCommand) (s : ServoState) :
  recognised command = false -> HandleCommand command s = Some (s, []).
Proof.
  unfold recognised, HandleCommand. intros H.
  apply orb_false_iff in H. destruct H as [H H3].
  apply orb_false_iff in H. destruct H as [H1 H2].
  rewrite H1, H2, H3. reflexivity.
Qed.

(** X1: a command that none of the three name tests of lines 117, 131 and
    142 accepts is the same as no command at all, through the whole of
    [Update]: same state, same output. (Which names a test accepts is for
    [CCommand::Equals] to say.) *)
Theorem unrecognised_command_is_no_command
        (env : Env) (command : CCommand) (s : ServoState) :
  recognised command = false ->
  Update env command s = Update (without_command env) command s.
Proof.
  intros H. unfold Update, without_command. simpl isCommandAvailable.
  destruct (isCommandAvailable env); [|reflexivity].
  rewrite (HandleCommand_unrecognised _ _ H). reflexivity.
Qed.

Lemma unrecognised_command_is_no_command_witness :
  recognised (mkCommand "camServ_TPOS" [1; 30000]) = false /\
  Update (mkEnv true true 5 5 true) (mkCommand "camServ_TPOS" [1; 30000])
    initial_state
  = Update (mkEnv false true 5 5 true) (mkCommand "camServ_TPOS" [1; 30000])
      initial_state.
Proof.
  split; [reflexivity|].
  exact (unrecognised_command_is_no_command (mkEnv true true 5 5 true)
           (mkCommand "camServ_TPOS" [1; 30000]) initial_state eq_refl).
Defined.

Lemma HandleCommand_frame
      (command : CCommand) (s s' : ServoState) (out : list SerialOut) :
  HandleCommand command s = Some (s', out) ->
  same_position s s' /\
  m_tLast s' = m_tLast s /\ m_tDelta s' = m_tDelta s.
Proof.
  unfold HandleCommand, same_position.
  destruct (Equals command "camServ_tpos").
  { destruct (DegreesToMicroseconds _ _) as [us|]; [|discriminate].
    intros [= <- _]. repeat split. }
  destruct (Equals command "camServ_spd").
  { intros [= <- _]. repeat split. }
  destruct (Equals command "camServ_inv").
  { destruct (argument1 command =? 1); [intros [= <- _]; repeat split|].
    destruct (argument1 command =? 0); intros [= <- _]; repeat split. }
  intros [= <- _]. repeat split.
Qed.

(** X2: no command moves the servo: whatever the command and its argument,
    the handler leaves the position, the accumulator, the angle, the compare
    register and the clock fields as they were. Only the update of lines
    164-204 moves. *)
Theorem commands_never_move
        (command : CCommand) (s s' : ServoState) (out : list SerialOut) :
  HandleCommand command s = Some (s', out) ->
  same_position s s' /\
  m_tLast s' = m_tLast s /\ m_tDelta s' = m_tDelta s.
Proof. apply HandleCommand_frame. Qed.

Lemma commands_never_move_witness :
  HandleCommand (camServ_tpos 30000) initial_state
  = Some (target_at_30,
          [print_F "camServ_tpos:"; print_int 30000; println_char ";"%char]) /\
  same_position initial_state target_at_30.
Proof.
  assert (H : HandleCommand (camServ_tpos 30000) initial_state
              = Some (target_at_30,
                      [print_F "camServ_tpos:"; print_int 30000;
                       println_char ";"%char]))
    by (vm_compute; reflexivity).
  split; [exact H|].
  exact (proj1 (commands_never_move _ _ _ _ H)).
Defined.

(** ** What every reachable state satisfies *)

Lemma consistent_initial : consistent initial_state.
Proof.
  unfold consistent. split; [reflexivity|]. split; [|reflexivity].
  vm_compute. reflexivity.
Qed.

Lemma HandleCommand_consistent
      (command : CCommand) (s s' : ServoState) (out : list SerialOut) :
  HandleCommand command s = Some (s', out) -> consistent s -> consistent s'.
Proof.
  unfold HandleCommand, consistent.
  destruct (Equals command "camServ_tpos").
  { destruct (DegreesToMicroseconds _ _) as [us|]; [|discriminate].
    intros [= <- _]. exact (fun H => H). }
  destruct (Equals command "camServ_spd").
  { intros [= <- _] (H1 & H2 & _). split; [exact H1|]. split; [exact H2|].
    reflexivity. }
  destruct (Equals command "camServ_inv").
  { destruct (argument1 command =? 1);
      [intros [= <- _]; exact (fun H => H)|].
    destruct (argument1 command =? 0);
      intros [= <- _]; exact (fun H => H). }
  intros [= <- _]. exact (fun H => H).
Qed.

Lemma publish_consistent (s : ServoState) :
  m_speed_us_per_ms s = speed_us_per_ms_of (m_speed_deg_per_s s) ->
  consistent (publish s).
Proof.
  intros H. unfold consistent. split; [reflexivity|]. split; [reflexivity|].
  exact H.
Qed.

Lemma PositionUpdate_consistent (tDelta : Z) (s s' : ServoState) :
  PositionUpdate tDelta s = Some s' -> consistent s -> consistent s'.
Proof.
  unfold PositionUpdate. intros HU (H1 & H2 & H3).
  destruct (tick_branch s tDelta).
  - injection HU as <-. unfold consistent. auto.
  - injection HU as <-. apply publish_consistent. exact H3.
  - unfold step_move in HU.
    destruct (F32.to_uint32 _) as [us|]; [|discriminate].
    injection HU as <-. apply publish_consistent. exact H3.
Qed.

Lemma ControlTick_consistent (now_first now_second : Z) (s s' : ServoState) :
  ControlTick now_first now_second s = Some s' ->
  consistent s -> consistent s'.
Proof.
  rewrite ControlTick_unfold. intros HU H.
  destruct (PositionUpdate _ _) as [s1|] eqn:E; [|discriminate].
  injection HU as <-.
  apply (PositionUpdate_consistent _ _ _ E) in H.
  exact H.
Qed.

Lemma Update_consistent
      (env : Env) (command : CCommand) (s s' : ServoState)
      (out : list SerialOut) :
  Update env command s = Some (s', out) -> consistent s -> consistent s'.
Proof.
  unfold Update. intros HU H.
  destruct (if isCommandAvailable env then HandleCommand command s
            else ret (s, [])) as [[s1 o1]|] eqn:E1; [|discriminate].
  assert (H1 : consistent s1).
  { destruct (isCommandAvailable env).
    - exact (HandleCommand_consistent _ _ _ _ E1 H).
    - injection E1 as <- _. exact H. }
  unfold bind in HU. simpl fst in HU. simpl snd in HU.
  destruct (if controlElapsed env
            then ControlTick (millis_first env) (millis_second env) s1
            else ret s1) as [s2|] eqn:E2; [|discriminate].
  assert (H2 : consistent s2).
  { destruct (controlElapsed env).
    - exact (ControlTick_consistent _ _ _ _ E2 H1).
    - injection E2 as <-. exact H1. }
  destruct (if telemetryElapsed env then Telemetry s2 else ret [])
    as [o|]; [|discriminate].
  injection HU as <- _. exact H2.
Qed.

(** X3: after any sequence of calls of [Update] from the initial state, with
    any commands and any timing, the compare register holds twice the
    position (modulo [2^16]), the stored angle is the conversion of the
    position without inversion, and the cached speed in pulse-width units is
    the conversion of the speed setting. *)
Theorem reachable_states_are_consistent
        (inputs : list (Env * CCommand)) (s : ServoState)
        (out : list SerialOut) :
  run_updates inputs initial_state = Some (s, out) -> consistent s.
Proof.
  assert (G : forall inputs s0 s out,
             run_updates inputs s0 = Some (s, out) ->
             consistent s0 -> consistent s).
  { clear. induction inputs as [|[env command] rest IH];
      intros s0 s out HR H0.
    - injection HR as <- _. exact H0.
    - change (run_updates ((env, command) :: rest) s0)
        with (r <- Update env command s0 ;;
              r' <- run_updates rest (fst r) ;;
              ret (fst r', (snd r ++ snd r')%list)) in HR.
      destruct (Update env command s0) as [[s1 o1]|] eqn:E; [|discriminate].
      unfold bind in HR. simpl fst in HR. simpl snd in HR.
      destruct (run_updates rest s1) as [[s2 o2]|] eqn:E2; [|discriminate].
      injection HR as <- _.
      exact (IH _ _ _ E2 (Update_consistent _ _ _ _ _ E H0)). }
  intros HR. exact (G _ _ _ _ HR consistent_initial).
Qed.

Lemma reachable_states_are_consistent_witness :
  exists s out,
    run_updates [(mkEnv true true 5 5 false, camServ_inv 1);
                 (mkEnv true true 10 10 true, camServ_tpos 10000)]
      initial_state = Some (s, out) /\
    m_currentPos_us s = 1391 /\ OCR1A s = 2782 /\ consistent s.
Proof.
  do 2 eexists.
  assert (H : forall r,
             run_updates [(mkEnv true true 5 5 false, camServ_inv 1);
                          (mkEnv true true 10 10 true, camServ_tpos 10000)]
               initial_state = Some r ->
             run_updates [(mkEnv true true 5 5 false, camServ_inv 1);
                          (mkEnv true true 10 10 true, camServ_tpos 10000)]
               initial_state = Some (fst r, snd r))
    by (intros [a b] E; exact E).
  split; [apply H; vm_compute; reflexivity|].
  split; [reflexivity|]. split; [reflexivity|].
  eapply reachable_states_are_consistent.
  apply H. vm_compute. reflexivity.
Defined.

(** ** Inversion *)

Lemma DegreesToMicroseconds_negated (v : Z) :
  DegreesToMicroseconds (Decode v) true
  = DegreesToMicroseconds (Decode (- v)) false.
Proof.
  destruct (Z.eq_dec v 0) as [->|Hz]; [vm_compute; reflexivity|].
  rewrite (Decode_opp v Hz). reflexivity.
Qed.

(** X4: with the inversion flag set, the target command with argument [v]
    is answered with the target pulse width that the argument [-v] gets
    without inversion, for every integer [v]; it is undefined for the one
    exactly when it is for the other. *)
Theorem inverted_target_is_negated_target
        (v : Z) (s1 s2 : ServoState) :
  m_isInverted s1 <> 0 -> m_isInverted s2 = 0 ->
  option_map (fun r => m_targetPos_us (fst r))
    (HandleCommand (camServ_tpos v) s1)
  = option_map (fun r => m_targetPos_us (fst r))
      (HandleCommand (camServ_tpos (- v)) s2).
Proof.
  intros H1 H2. unfold HandleCommand.
  change (Equals (camServ_tpos v) "camServ_tpos") with true.
  change (Equals (camServ_tpos (- v)) "camServ_tpos") with true.
  change (argument1 (camServ_tpos v)) with v.
  change (argument1 (camServ_tpos (- v))) with (- v).
  rewrite H2.
  destruct (Z.eqb_spec (m_isInverted s1) 0) as [E|_]; [contradiction|].
  change (negb false) with true. change (negb (0 =? 0)) with false.
  rewrite DegreesToMicroseconds_negated.
  destruct (DegreesToMicroseconds (Decode (- v)) false); reflexivity.
Qed.

Lemma inverted_target_is_negated_target_witness :
  m_isInverted (set_inverted 1 initial_state) <> 0 /\
  m_isInverted initial_state = 0 /\
  option_map (fun r => m_targetPos_us (fst r))
    (HandleCommand (camServ_tpos 10000) (set_inverted 1 initial_state))
  = Some 1391 /\
  option_map (fun r => m_targetPos_us (fst r))
    (HandleCommand (camServ_tpos (-10000)) initial_state)
  = Some 1391.
Proof.
  assert (H1 : m_isInverted (set_inverted 1 initial_state) <> 0)
    by discriminate.
  assert (H2 : m_isInverted initial_state = 0) by reflexivity.
  split; [exact H1|]. split; [exact H2|].
  pose proof (inverted_target_is_negated_target 10000 _ _ H1 H2) as H.
  assert (E : option_map (fun r => m_targetPos_us (fst r))
                (HandleCommand (camServ_tpos (-10000)) initial_state)
              = Some 1391) by (vm_compute; reflexivity).
  change (- (10000)) with (-10000) in H.
  split; [rewrite H; exact E | exact E].
Defined.

(** ** When the servo moves *)

Lemma same_position_refl (s : ServoState) : same_position s s.
Proof. unfold same_position. auto. Qed.

Lemma same_position_trans (s1 s2 s3 : ServoState) :
  same_position s1 s2 -> same_position s2 s3 -> same_position s1 s3.
Proof.
  unfold same_position.
  intros (A1 & A2 & A3 & A4) (B1 & B2 & B3 & B4).
  repeat split; congruence.
Qed.

Lemma ControlTick_at_target (now_first now_second : Z) (s : ServoState) :
  at_target s ->
  ControlTick now_first now_second s
  = Some (set_tLast now_second
            (set_tDelta ((now_first - m_tLast s) mod 2 ^ 32) s)).
Proof.
  intros H. rewrite ControlTick_unfold.
  rewrite PositionUpdate_NoMove; [reflexivity|].
  apply tick_branch_NoMove. exact H.
Qed.

(** X5: a call of [Update] leaves the position, the accumulator, the angle
    and the compare register as they were whenever the control timer has
    not elapsed (whatever the command), and also whenever no command is
    available and the position is at the target (whatever the timers and
    the clock say). *)
Theorem Update_moves_only_on_control_tick
        (env : Env) (command : CCommand) (s s' : ServoState)
        (out : list SerialOut) :
  Update env command s = Some (s', out) ->
  controlElapsed env = false \/
  (isCommandAvailable env = false /\ at_target s) ->
  same_position s s'.
Proof.
  unfold Update. intros HU Hc.
  destruct (if isCommandAvailable env then HandleCommand command s
            else ret (s, [])) as [[s1 o1]|] eqn:E1; [|discriminate].
  unfold bind in HU. simpl fst in HU. simpl snd in HU.
  destruct (if controlElapsed env
            then ControlTick (millis_first env) (millis_second env) s1
            else ret s1) as [s2|] eqn:E2; [|discriminate].
  destruct (if telemetryElapsed env then Telemetry s2 else ret [])
    as [o|]; [|discriminate].
  injection HU as <- _.
  destruct Hc as [Hc|[Ha Ht]].
  - rewrite Hc in E2. injection E2 as <-.
    destruct (isCommandAvailable env).
    + exact (proj1 (HandleCommand_frame _ _ _ _ E1)).
    + injection E1 as <- _. apply same_position_refl.
  - rewrite Ha in E1. injection E1 as <- _.
    destruct (controlElapsed env).
    + rewrite (ControlTick_at_target _ _ _ Ht) in E2.
      injection E2 as <-. unfold same_position. auto.
    + injection E2 as <-. apply same_position_refl.
Qed.

Lemma Update_moves_only_on_control_tick_witness :
  exists s' out,
    Update (mkEnv true false 5 5 true) (camServ_tpos 30000) initial_state
    = Some (s', out) /\
    m_targetPos_us s' = 1772 /\
    same_position initial_state s'.
Proof.
  do 2 eexists.
  assert (H : forall r,
             Update (mkEnv true false 5 5 true) (camServ_tpos 30000)
               initial_state = Some r ->
             Update (mkEnv true false 5 5 true) (camServ_tpos 30000)
               initial_state = Some (fst r, snd r))
    by (intros [a b] E; exact E).
  split; [apply H; vm_compute; reflexivity|].
  split; [reflexivity|].
  eapply Update_moves_only_on_control_tick.
  - apply H. vm_compute. reflexivity.
  - left. reflexivity.
Defined.

(** X6: the elapsed time survives the wrap-around of [millis()]: when the
    32-bit clock has advanced by [d] milliseconds since [m_tLast] was taken,
    wrapped or not, the update runs with [m_tDelta = d], and [m_tLast]
    becomes the second reading of the clock. *)
Theorem elapsed_time_survives_wrap
        (d now_second : Z) (s : ServoState) :
  0 <= m_tLast s < 2 ^ 32 -> 0 <= d < 2 ^ 32 ->
  ControlTick ((m_tLast s + d) mod 2 ^ 32) now_second s
  = (s' <- PositionUpdate d (set_tDelta d s) ;;
     ret (set_tLast now_second s')).
Proof.
  intros Ht Hd. rewrite ControlTick_unfold.
  replace (((m_tLast s + d) mod 2 ^ 32 - m_tLast s) mod 2 ^ 32) with d;
    [reflexivity|].
  rewrite Zminus_mod_idemp_l.
  replace (m_tLast s + d - m_tLast s) with d by lia.
  symmetry. apply Z.mod_small. exact Hd.
Qed.

Lemma elapsed_time_survives_wrap_witness :
  0 <= m_tLast (set_tLast 4294967294 initial_state) < 2 ^ 32 /\
  0 <= 5 < 2 ^ 32 /\
  ControlTick 3 3 (set_tLast 4294967294 initial_state)
  = (s' <- PositionUpdate 5 (set_tDelta 5 (set_tLast 4294967294 initial_state)) ;;
     ret (set_tLast 3 s')).
Proof.
  assert (H1 : 0 <= m_tLast (set_tLast 4294967294 initial_state) < 2 ^ 32)
    by (simpl m_tLast; lia).
  assert (H2 : 0 <= 5 < 2 ^ 32) by lia.
  split; [exact H1|]. split; [exact H2|].
  exact (elapsed_time_survives_wrap 5 3 _ H1 H2).
Defined.

(** ** Telemetry and the compare register *)

(** X7: the output of a call of [Update] is the acknowledgement of the
    command, if any, followed by the telemetry line when the telemetry timer
    has elapsed. The line is sent whether or not the servo moved, and
    carries the encoding of the angle as it is after the position update of
    the same call. *)
Theorem telemetry_follows_the_update
        (env : Env) (command : CCommand) (s s' : ServoState)
        (out : list SerialOut) :
  Update env command s = Some (s', out) ->
  exists ack,
    (if isCommandAvailable env
     then exists s1, HandleCommand command s = Some (s1, ack)
     else ack = []) /\
    (if telemetryElapsed env
     then exists z,
         Encode (m_currentPos_deg s') = Some z /\
         out = (ack ++ [print_F "camServ_pos:"; print_int z;
                        println_char ";"%char])%list
     else out = ack).
Proof.
  unfold Update. intros HU.
  destruct (if isCommandAvailable env then HandleCommand command s
            else ret (s, [])) as [[s1 o1]|] eqn:E1; [|discriminate].
  unfold bind in HU. simpl fst in HU. simpl snd in HU.
  destruct (if controlElapsed env
            then ControlTick (millis_first env) (millis_second env) s1
            else ret s1) as [s2|] eqn:E2; [|discriminate].
  exists o1. split.
  - destruct (isCommandAvailable env).
    + exists s1. exact E1.
    + injection E1 as _ <-. reflexivity.
  - destruct (telemetryElapsed env).
    + unfold Telemetry in HU.
      destruct (Encode (m_currentPos_deg s2)) as [z|] eqn:Ez;
        [|discriminate].
      unfold bind in HU. injection HU as <- <-.
      exists z. split; [exact Ez | reflexivity].
    + injection HU as <- <-. apply app_nil_r.
Qed.

Lemma telemetry_follows_the_update_witness :
  exists s' out,
    Update (mkEnv true true 5 5 true) (camServ_tpos 30000) initial_state
    = Some (s', out) /\
    out = [print_F "camServ_tpos:"; print_int 30000; println_char ";"%char;
           print_F "camServ_pos:"; print_int 14175; println_char ";"%char] /\
    exists ack z,
      Encode (m_currentPos_deg s') = Some z /\
      out = (ack ++ [print_F "camServ_pos:"; print_int z;
                     println_char ";"%char])%list.
Proof.
  do 2 eexists.
  assert (H : forall r,
             Update (mkEnv true true 5 5 true) (camServ_tpos 30000)
               initial_state = Some r ->
             Update (mkEnv true true 5 5 true) (camServ_tpos 30000)
               initial_state = Some (fst r, snd r))
    by (intros [a b] E; exact E).
  assert (E : Update (mkEnv true true 5 5 true) (camServ_tpos 30000)
                initial_state = Some (_, _))
    by (apply H; vm_compute; reflexivity).
  split; [exact E|]. split; [reflexivity|].
  destruct (telemetry_follows_the_update _ _ _ _ _ E) as (ack & _ & Ht).
  exists ack. exact Ht.
Defined.

(** X8: [SetServoPosition] writes twice the pulse width into the 16-bit
    compare register, and nothing else. Below 32768 us the register holds
    exactly twice the pulse width; from there on it wraps, so that pulse
    widths 32768 us apart drive the servo alike. *)
Theorem SetServoPosition_register (us : Z) (s : ServoState) :
  0 <= OCR1A (SetServoPosition us s) < 2 ^ 16 /\
  (0 <= us < 32768 -> OCR1A (SetServoPosition us s) = 2 * us) /\
  OCR1A (SetServoPosition (us + 32768) s) = OCR1A (SetServoPosition us s) /\
  m_currentPos_us (SetServoPosition us s) = m_currentPos_us s /\
  m_fCurrentPos_us (SetServoPosition us s) = m_fCurrentPos_us s /\
  m_currentPos_deg (SetServoPosition us s) = m_currentPos_deg s /\
  m_targetPos_us (SetServoPosition us s) = m_targetPos_us s.
Proof.
  unfold SetServoPosition, ocr_of. cbn [OCR1A m_currentPos_us
    m_fCurrentPos_us m_currentPos_deg m_targetPos_us].
  change (2 ^ 16) with 65536.
  split; [apply Z.mod_pos_bound; lia|].
  split; [intros H; rewrite Z.mod_small; lia|].
  split; [|repeat split].
  replace ((us + 32768) * 2) with (us * 2 + 1 * 65536) by lia.
  apply Z_mod_plus_full.
Qed.

Lemma SetServoPosition_register_witness :
  0 <= 1487 < 32768 /\ OCR1A (SetServoPosition 1487 initial_state) = 2 * 1487.
Proof.
  split; [lia|].
  apply (proj1 (proj2 (SetServoPosition_register 1487 initial_state))). lia.
Defined.

(** ** Speed settings that are not positive *)

(** The quotient of a positive finite number by a number with a clear sign
    bit has a clear sign bit. *)
Lemma div_positive (mx : positive) (ex : Z) (y : float) :
  F32.has_sign false y = true ->
  F32.has_sign false (F32.div (S754_finite false mx ex) y) = true.
Proof.
  destruct y as [sy|sy| |sy my ey]; simpl; try discriminate;
    destruct sy; try discriminate; intros _; try reflexivity.
  unfold F32.div, SFdiv.
  destruct (SFdiv_core_binary F32.prec F32.emax (Zpos mx) ex (Zpos my) ey)
    as [[mz ez] lz] eqn:E.
  apply F32Facts.binary_round_aux_sign.
  unfold SFdiv_core_binary in E.
  set (m' := match Z.sub (Z.sub ex ey) _ with
             | Zpos _ => Z.shiftl (Zpos mx) _
             | Z0 => Zpos mx
             | Zneg _ => Z0
             end) in E.
  assert (Hm : 0 <= m').
  { unfold m'. destruct (Z.sub (Z.sub ex ey) _); try lia.
    apply Z.shiftl_nonneg. lia. }
  pose proof (Z.div_pos m' (Zpos my) Hm ltac:(lia)) as Hq.
  unfold Z.div in Hq.
  destruct (Z.div_eucl m' (Zpos my)) as [q r].
  injection E as <- _ _. exact Hq.
Qed.

(** Nothing with a clear sign bit is below a number that is not positive. *)
Lemma ltb_unsigned_nonpositive (x y : float) :
  F32.has_sign false x = true -> nonpositive y = true ->
  F32.ltb x y = false.
Proof.
  destruct x as [sx|sx| |sx mx ex]; simpl; try discriminate;
    destruct sx; try discriminate; intros _;
    destruct y as [sy|sy| |sy my ey]; try discriminate;
    destruct sy; try discriminate; intros _; reflexivity.
Qed.

Lemma nonpositive_speed_Step
      (s : ServoState) (tDelta : Z) (m : positive) (e : Z) :
  ~ at_target s ->
  tick_error s = S754_finite false m e ->
  0 <= tDelta ->
  nonpositive (m_speed_us_per_ms s) = true ->
  tick_branch s tDelta = Step.
Proof.
  intros Hn He Hd Hs. unfold tick_branch.
  destruct (Z.eqb_spec (m_currentPos_us s) (m_targetPos_us s)) as [E|_];
    [contradiction|].
  unfold snap_test. rewrite He.
  rewrite ltb_unsigned_nonpositive; [reflexivity| |exact Hs].
  apply div_positive, F32Facts.of_Z_sign, Hd.
Qed.

(** X9: the speed setting is stored without validation; when the cached
    speed limit is zero or negative, an update with a positive error, that
    is with the target above the accumulator, never takes the direct move,
    whatever the elapsed time: it takes the proportional step. *)
Theorem nonpositive_speed_never_snaps_upward
        (s : ServoState) (tDelta : Z) (m : positive) (e : Z) :
  ~ at_target s ->
  tick_error s = S754_finite false m e ->
  0 <= tDelta ->
  nonpositive (m_speed_us_per_ms s) = true ->
  tick_branch s tDelta = Step.
Proof. apply nonpositive_speed_Step. Qed.

Lemma nonpositive_speed_never_snaps_upward_witness :
  exists s,
    after_commands [camServ_spd (-50000); camServ_tpos 30000] initial_state
    = Some s /\
    nonpositive (m_speed_us_per_ms s) = true /\
    tick_branch s 5 = Step.
Proof.
  eexists.
  split; [vm_compute; reflexivity|].
  split; [vm_compute; reflexivity|].
  eapply nonpositive_speed_never_snaps_upward.
  - unfold at_target. vm_compute. discriminate.
  - vm_compute. reflexivity.
  - lia.
  - vm_compute. reflexivity.
Defined.

Lemma zero_speed_step (s s' : ServoState) (tDelta : Z)
      (sg sf : bool) (m mf : positive) (e ef : Z) :
  m_speed_us_per_ms s = S754_zero sg ->
  tick_error s = S754_finite false m e ->
  m_fCurrentPos_us s = S754_finite sf mf ef ->
  0 <= tDelta ->
  PositionUpdate tDelta s = Some s' ->
  m_fCurrentPos_us s' = m_fCurrentPos_us s /\
  m_targetPos_us s' = m_targetPos_us s /\
  m_speed_us_per_ms s' = m_speed_us_per_ms s.
Proof.
  intros Hs He Hf Hd HU.
  destruct (PositionUpdate_keeps_target _ _ _ HU) as (Ht & _ & _ & Hsp).
  split; [|split; [exact Ht | exact Hsp]].
  destruct (Z.eq_dec (m_currentPos_us s) (m_targetPos_us s)) as [Ea|Ea].
  - rewrite PositionUpdate_NoMove in HU
      by (apply tick_branch_NoMove; exact Ea).
    injection HU as <-. reflexivity.
  - rewrite PositionUpdate_Step in HU.
    + unfold step_move in HU. rewrite Hs, He, Hf in HU.
      change (F32.add (S754_finite sf mf ef)
                (F32.mul (S754_zero sg) (S754_finite false m e)))
        with (S754_finite sf mf ef) in HU.
      destruct (F32.to_uint32 (S754_finite sf mf ef)) as [us|];
        [|discriminate].
      injection HU as <-. exact (eq_sym Hf).
    + apply (nonpositive_speed_Step s tDelta m e Ea He Hd).
      rewrite Hs. reflexivity.
Qed.

(** X10: with the speed limit zero (as after [camServ_spd:0;]) and the
    target above a finite accumulator, no number of updates brings the
    accumulator nearer: it, the target and so the error stay exactly as
    they were, whatever the elapsed time. *)
Theorem zero_speed_freezes_upward_moves
        (n : nat) (s s' : ServoState) (tDelta : Z)
        (sg sf : bool) (m mf : positive) (e ef : Z) :
  m_speed_us_per_ms s = S754_zero sg ->
  tick_error s = S754_finite false m e ->
  m_fCurrentPos_us s = S754_finite sf mf ef ->
  0 <= tDelta ->
  run_ticks n tDelta s = Some s' ->
  m_fCurrentPos_us s' = m_fCurrentPos_us s /\
  m_targetPos_us s' = m_targetPos_us s /\
  tick_error s' = tick_error s.
Proof.
  intros Hs He Hf Hd. revert s Hs He Hf.
  induction n as [|n IH]; intros s Hs He Hf HR.
  - injection HR as <-. auto.
  - rewrite run_ticks_S in HR.
    destruct (PositionUpdate tDelta s) as [s1|] eqn:E; [|discriminate].
    unfold bind in HR.
    destruct (zero_speed_step _ _ _ _ _ _ _ _ _ Hs He Hf Hd E)
      as (H1 & H2 & H3).
    assert (He1 : tick_error s1 = tick_error s)
      by (unfold tick_error; rewrite H1, H2; reflexivity).
    destruct (IH s1) as (A & B & C); try congruence.
    repeat split; congruence.
Qed.

Lemma zero_speed_freezes_upward_moves_witness :
  exists s s',
    after_commands [camServ_spd 0; camServ_tpos 30000] initial_state = Some s /\
    run_ticks 100 5 s = Some s' /\
    m_fCurrentPos_us s' = kZeroPosMicrosecs /\
    m_targetPos_us s' = 1772.
Proof.
  pose (s := set_target (Decode 30000) 1772
               (set_speed (Decode 0) (speed_us_per_ms_of (Decode 0))
                  initial_state)).
  assert (E : after_commands [camServ_spd 0; camServ_tpos 30000] initial_state
              = Some s) by (vm_compute; reflexivity).
  assert (Hs : m_speed_us_per_ms s = S754_zero false)
    by (vm_compute; reflexivity).
  assert (He : tick_error s = S754_finite false 9338880 (-15))
    by (vm_compute; reflexivity).
  assert (Hf : m_fCurrentPos_us s = S754_finite false 12181504 (-13))
    by (vm_compute; reflexivity).
  destruct (run_ticks 100 5 s) as [s'|] eqn:HR;
    [|vm_compute in HR; discriminate].
  destruct (zero_speed_freezes_upward_moves 100 s s' 5 _ _ _ _ _ _
              Hs He Hf ltac:(lia) HR) as (A & B & _).
  exists s, s'. split; [exact E|]. split; [exact HR|].
  split; [exact A | exact B].
Defined.

(** ** Moves toward smaller pulse widths *)

(** X11: with the position not yet on the target
    ([m_currentPos_us <> m_targetPos_us]), a positive speed limit and the
    target below the accumulator (a finite negative error), one update,
    whatever the elapsed time, puts the position on the target, the
    accumulator on the exact conversion of the target, the angle and the
    compare register on its images, and every later update leaves this
    state as it is. *)
Theorem downward_move_is_immediate
        (n : nat) (s : ServoState) (tDelta : Z) :
  ~ at_target s ->
  F32.is_finite (tick_error s) = true ->
  F32.is_negative (tick_error s) = true ->
  0 <= tDelta ->
  F32.ltb (S754_zero false) (m_speed_us_per_ms s) = true ->
  exists s',
    run_ticks (S n) tDelta s = Some s' /\
    m_currentPos_us s' = m_targetPos_us s /\
    m_fCurrentPos_us s' = F32.of_Z (m_targetPos_us s) /\
    m_currentPos_deg s' = MicrosecondsToDegrees (m_targetPos_us s) false /\
    OCR1A s' = ocr_of (m_targetPos_us s) /\
    m_targetPos_us s' = m_targetPos_us s.
Proof.
  intros Hn Hf Hneg Hd Hs.
  exists (publish (snap_move s)).
  split; [|repeat split].
  rewrite run_ticks_S.
  rewrite (PositionUpdate_Snap tDelta s)
    by (apply negative_error_always_snaps; assumption).
  unfold bind. apply at_target_stable. reflexivity.
Qed.

Lemma downward_move_is_immediate_witness :
  exists s s',
    neutral_to_minus_30 = Some s /\
    run_ticks 3 5 s = Some s' /\
    m_currentPos_us s' = 1201 /\
    m_fCurrentPos_us s' = F32.of_Z 1201.
Proof.
  exists (set_target (Decode (-30000)) 1201 initial_state).
  assert (E : neutral_to_minus_30
              = Some (set_target (Decode (-30000)) 1201 initial_state))
    by (vm_compute; reflexivity).
  destruct (downward_move_is_immediate 2
              (set_target (Decode (-30000)) 1201 initial_state) 5)
    as (s' & HR & Hc & Hf & _).
  - unfold at_target. vm_compute. discriminate.
  - vm_compute. reflexivity.
  - vm_compute. reflexivity.
  - lia.
  - vm_compute. reflexivity.
  - exists s'. split; [exact E|]. split; [exact HR|].
    split; [exact Hc | exact Hf].
Defined.

(** ** The accumulator and the position *)

Lemma digits2_pos_size (p : positive) : digits2_pos p = Pos.size p.
Proof. induction p as [p IH|p IH|]; simpl; congruence. Qed.

Lemma digits2_pos_bound (p : positive) :
  Zpos p < 2 ^ 24 -> Zpos (digits2_pos p) <= 24.
Proof.
  intros H. rewrite digits2_pos_size.
  pose proof (Pos.size_le p) as L.
  apply Pos2Z.pos_le_pos in L.
  rewrite Pos2Z.inj_pow in L.
  change (Zpos p~0) with (2 * Zpos p) in L.
  destruct (Z_le_gt_dec (Zpos (Pos.size p)) 24) as [Hle|Hgt]; [exact Hle|].
  assert (2 ^ 25 <= 2 ^ Zpos (Pos.size p))
    by (apply Z.pow_le_mono_r; lia).
  change (2 ^ 25) with (2 * 2 ^ 24) in H0. lia.
Qed.

Lemma digits2_pos_iter_xO (p k : positive) :
  Zpos (digits2_pos (Pos.iter xO p k)) = Zpos (digits2_pos p) + Zpos k.
Proof.
  induction k as [|k IH] using Pos.peano_ind.
  - simpl. lia.
  - rewrite Pos.iter_succ. simpl digits2_pos. lia.
Qed.

Lemma iter_xO_value (p k : positive) :
  Zpos (Pos.iter xO p k) = Zpos p * 2 ^ Zpos k.
Proof.
  induction k as [|k IH] using Pos.peano_ind.
  - simpl. lia.
  - rewrite Pos.iter_succ, Pos2Z.inj_succ, Z.pow_succ_r by lia.
    change (Zpos (Pos.iter xO p k)~0) with (2 * Zpos (Pos.iter xO p k)).
    lia.
Qed.

(** A mantissa of full width within the exponent range is kept as it is. *)
Lemma binary_round_aux_exact (m : positive) (e : Z) :
  Zpos (digits2_pos m) = 24 -> -149 <= e <= 104 ->
  binary_round_aux F32.prec F32.emax false (Zpos m) e loc_Exact
  = S754_finite false m e.
Proof.
  intros Hd He.
  assert (S : forall l, shr_fexp F32.prec F32.emax (Zpos m) e l
                        = (shr_record_of_loc (Zpos m) l, e)).
  { intros l. unfold shr_fexp. simpl Zdigits2. rewrite Hd.
    replace (fexp F32.prec F32.emax (24 + e)) with e
      by (unfold fexp, emin, F32.prec, F32.emax; lia).
    rewrite Z.sub_diag. reflexivity. }
  unfold binary_round_aux. rewrite S.
  cbn [shr_record_of_loc shr_m loc_of_shr_record round_nearest_even].
  rewrite S. cbn [shr_record_of_loc shr_m].
  replace (Z.leb e (Z.sub F32.emax F32.prec)) with true; [reflexivity|].
  symmetry. apply Z.leb_le. unfold F32.emax, F32.prec. lia.
Qed.

(** Integers below [2^24] are exact in binary32. *)
Lemma trunc_of_Z (n : Z) :
  0 <= n < 2 ^ 24 -> F32.trunc (F32.of_Z n) = Some n.
Proof.
  intros Hn. destruct n as [|p|p]; [reflexivity| |lia].
  pose proof (digits2_pos_bound p (proj2 Hn)) as Hd.
  unfold F32.of_Z, binary_normalize, binary_round.
  replace (fexp F32.prec F32.emax (Z.add (Zpos (digits2_pos p)) 0))
    with (Zpos (digits2_pos p) - 24)
    by (unfold fexp, emin, F32.prec, F32.emax; lia).
  unfold shl_align.
  destruct (Z.sub (Zpos (digits2_pos p) - 24) 0) as [|k|k] eqn:Ek;
    [| lia |].
  - rewrite binary_round_aux_exact by lia.
    simpl. reflexivity.
  - rewrite binary_round_aux_exact;
      [| rewrite digits2_pos_iter_xO; lia | lia].
    unfold F32.trunc, cond_Zopp.
    rewrite Z.shiftl_div_pow2 by lia.
    rewrite iter_xO_value.
    replace (- (Zpos (digits2_pos p) - 24)) with (Zpos k) by lia.
    rewrite Z.div_mul; [reflexivity|].
    apply Z.pow_nonzero; lia.
Qed.

Lemma to_uint32_of_Z (n : Z) :
  0 <= n < 2 ^ 24 -> F32.to_uint32 (F32.of_Z n) = Some n.
Proof.
  intros Hn. unfold F32.to_uint32. rewrite (trunc_of_Z n Hn).
  unfold F32.in_range.
  replace (0 <=? n) with true by (symmetry; apply Z.leb_le; lia).
  replace (n <=? 2 ^ 32 - 1) with true; [reflexivity|].
  symmetry. apply Z.leb_le.
  assert (2 ^ 24 < 2 ^ 32) by reflexivity. lia.
Qed.

Lemma PositionUpdate_in_step (tDelta : Z) (s s' : ServoState) :
  0 <= m_targetPos_us s < 2 ^ 24 ->
  accumulator_in_step s ->
  PositionUpdate tDelta s = Some s' ->
  accumulator_in_step s'.
Proof.
  intros Ht Hi HU. unfold PositionUpdate in HU.
  destruct (tick_branch s tDelta).
  - injection HU as <-. exact Hi.
  - injection HU as <-. unfold accumulator_in_step.
    exact (to_uint32_of_Z _ Ht).
  - unfold step_move in HU.
    destruct (F32.to_uint32 _) as [us|] eqn:E; [|discriminate].
    injection HU as <-. unfold accumulator_in_step. exact E.
Qed.

(** X12: the position is always the accumulator truncated toward zero: when
    the target is below [2^24] us and the position is the conversion of the
    accumulator to [uint32_t], it still is after any number of updates,
    whichever branches they take. (The direct move assigns the target to
    both; the conversion of the target to [float] is then exact.) *)
Theorem position_is_truncated_accumulator
        (n : nat) (tDelta : Z) (s s' : ServoState) :
  0 <= m_targetPos_us s < 2 ^ 24 ->
  accumulator_in_step s ->
  run_ticks n tDelta s = Some s' ->
  accumulator_in_step s'.
Proof.
  revert s. induction n as [|n IH]; intros s Ht Hi HR.
  - injection HR as <-. exact Hi.
  - rewrite run_ticks_S in HR.
    destruct (PositionUpdate tDelta s) as [s1|] eqn:E; [|discriminate].
    unfold bind in HR.
    apply (IH s1); [| |exact HR].
    + destruct (PositionUpdate_keeps_target _ _ _ E) as (-> & _). exact Ht.
    + exact (PositionUpdate_in_step _ _ _ Ht Hi E).
Qed.

Lemma position_is_truncated_accumulator_witness :
  exists s s',
    default_to_30 = Some s /\
    run_ticks 3 5 s = Some s' /\
    m_currentPos_us s' = 1731 /\
    accumulator_in_step s'.
Proof.
  assert (E : default_to_30 = Some target_at_30) by (vm_compute; reflexivity).
  destruct (run_ticks 3 5 target_at_30) as [s'|] eqn:HR;
    [|vm_compute in HR; discriminate].
  exists target_at_30, s'.
  split; [exact E|]. split; [exact HR|].
  split.
  - vm_compute in HR. injection HR as <-. reflexivity.
  - apply (position_is_truncated_accumulator 3 5 target_at_30 s');
      [vm_compute; split; [discriminate | reflexivity]
      | vm_compute; reflexivity | exact HR].
Defined.

(** ** The wire encoding *)

Lemma trunc_opp (y : float) (z : Z) :
  F32.trunc y = Some z -> F32.trunc (F32.opp y) = Some (- z).
Proof.
  destruct y as [s|s| |s m e]; simpl; try discriminate.
  - intros [= <-]. reflexivity.
  - intros [= <-]. destruct s; simpl; f_equal; lia.
Qed.

Lemma Encode_opp (x : float) (z : Z) :
  Encode x = Some z -> - 2 ^ 31 < z -> Encode (F32.opp x) = Some (- z).
Proof.
  unfold Encode, F32.to_int32. rewrite F32Facts.mul_opp_l.
  destruct (F32.trunc (F32.mul x f1000)) as [t|] eqn:T; [|discriminate].
  rewrite (trunc_opp _ _ T).
  destruct (F32.in_range (- 2 ^ 31) (2 ^ 31 - 1) t) eqn:R; [|discriminate].
  intros [= <-] Hz.
  unfold F32.in_range in *.
  apply andb_true_iff in R. destruct R as [R1 R2].
  apply Z.leb_le in R1. apply Z.leb_le in R2.
  replace ((- 2 ^ 31 <=? - t) && (- t <=? 2 ^ 31 - 1)) with true;
    [reflexivity|].
  symmetry. apply andb_true_iff. split; apply Z.leb_le; lia.
Qed.

(** Every thousandth from 0 to 45 degrees, evaluated. *)
Lemma wire_round_trip_checked :
  all_between 16 0 checked_travel wire_round_trip = true.
Proof. vm_compute. reflexivity. Qed.

Lemma wire_round_trip_nonneg (v : Z) :
  0 <= v <= checked_travel -> Encode (Decode v) = Some v.
Proof.
  intros Hv.
  pose proof (all_between_spec _ _ _ _ wire_round_trip_checked v Hv) as H.
  unfold wire_round_trip in H.
  destruct (Encode (Decode v)) as [z|]; [|discriminate].
  apply Z.eqb_eq in H. congruence.
Qed.

(** X13: the fixed-point wire encoding is lossless on the travel: for every
    wire value [v] from -45000 to 45000 (thousandths of a degree), decoding
    and encoding again gives [v] back, although neither [0.001f] nor most
    decoded angles are exact in binary32 and [Encode] truncates. *)
Theorem Encode_Decode_round_trip (v : Z) :
  -45000 <= v <= 45000 -> Encode (Decode v) = Some v.
Proof.
  intros Hv. destruct (Z_lt_le_dec v 0) as [Hneg|Hpos].
  - replace v with (- (- v)) by lia.
    rewrite Decode_opp by lia.
    apply Encode_opp.
    + apply wire_round_trip_nonneg. unfold checked_travel. lia.
    + assert (- 2 ^ 31 < -45000) by reflexivity. lia.
  - apply wire_round_trip_nonneg. unfold checked_travel. lia.
Qed.

Lemma Encode_Decode_round_trip_witness :
  -45000 <= -12345 <= 45000 /\ Encode (Decode (-12345)) = Some (-12345).
Proof.
  split; [lia|]. apply Encode_Decode_round_trip. lia.
Defined.

(** ** Activation *)

Lemma testbit_bit (n j : Z) :
  0 <= n -> Z.testbit (bit n) j = (j =? n).
Proof.
  intros Hn. unfold bit. rewrite Z.shiftl_1_l.
  destruct (Z.eqb_spec j n) as [->|Hne].
  - apply Z.pow2_bits_true. exact Hn.
  - apply Z.pow2_bits_false. congruence.
Qed.

(** X14: [Initialize] sets the capability bit of the camera mount and keeps
    every other bit of the capability mask; it puts the neutral pulse width
    into the compare register whatever that held, which makes the
    statically initialised controller the [initial_state] that [Update]
    starts from; and it touches no other field of the controller. *)
Theorem Initialize_activates
        (k : BoardConstants) (b : Board) (s : ServoState) (ocr : Z) :
  0 <= CAMERA_MOUNT_1_AXIS_CAPABLE k < 15 ->
  (forall j,
     Z.testbit (m_capabilityBitmask (fst (Initialize k b s))) j
     = Z.testbit (m_capabilityBitmask b) j
       || (j =? CAMERA_MOUNT_1_AXIS_CAPABLE k)) /\
  ICR1 (fst (Initialize k b s)) = 40000 /\
  snd (Initialize k b (power_on ocr)) = initial_state /\
  OCR1A (snd (Initialize k b s)) = 2 * kNeutralPosition_us /\
  m_currentPos_us (snd (Initialize k b s)) = m_currentPos_us s /\
  m_fCurrentPos_us (snd (Initialize k b s)) = m_fCurrentPos_us s /\
  m_targetPos_us (snd (Initialize k b s)) = m_targetPos_us s /\
  m_isInverted (snd (Initialize k b s)) = m_isInverted s /\
  m_speed_us_per_ms (snd (Initialize k b s)) = m_speed_us_per_ms s.
Proof.
  intros Hk. split.
  - intros j. unfold Initialize. cbn [fst m_capabilityBitmask].
    rewrite Z.lor_spec, (testbit_bit _ j (proj1 Hk)). reflexivity.
  - repeat split.
Qed.

Lemma Initialize_activates_witness :
  0 <= CAMERA_MOUNT_1_AXIS_CAPABLE (mkConstants 9 7 1 4 3 1 3) < 15 /\
  m_capabilityBitmask
    (fst (Initialize (mkConstants 9 7 1 4 3 1 3)
            (mkBoard 255 255 0 [] 5) (power_on 0))) = 13 /\
  snd (Initialize (mkConstants 9 7 1 4 3 1 3)
         (mkBoard 255 255 0 [] 5) (power_on 0)) = initial_state.
Proof.
  split; [simpl; lia|]. split; [reflexivity|].
  exact (proj1 (proj2 (proj2
           (Initialize_activates (mkConstants 9 7 1 4 3 1 3)
              (mkBoard 255 255 0 [] 5) (power_on 0) 0
              ltac:(simpl; lia))))).
Defined.

(** ** The target invariant through [Update] *)

Lemma HandleCommand_keeps_sync
      (command : CCommand) (s s' : ServoState) (out : list SerialOut) :
  Equals command "camServ_inv" = false ->
  HandleCommand command s = Some (s', out) ->
  target_in_sync s -> target_in_sync s'.
Proof.
  intros Hi HC Hs.
  destruct (Equals command "camServ_tpos") eqn:E1.
  { exact (tpos_in_sync _ _ _ _ E1 HC). }
  destruct (Equals command "camServ_spd") eqn:E2.
  { exact (spd_in_sync _ _ _ _ E2 HC Hs). }
  rewrite HandleCommand_unrecognised in HC
    by (unfold recognised; rewrite E1, E2, Hi; reflexivity).
  injection HC as <- _. exact Hs.
Qed.

Lemma ControlTick_keeps_sync (now_first now_second : Z) (s s' : ServoState) :
  ControlTick now_first now_second s = Some s' ->
  target_in_sync s -> target_in_sync s'.
Proof.
  rewrite ControlTick_unfold. intros HU Hs.
  destruct (PositionUpdate _ _) as [s1|] eqn:E; [|discriminate].
  injection HU as <-.
  destruct (PositionUpdate_keeps_target _ _ _ E) as (Hus & Hdeg & Hinv & _).
  unfold target_in_sync in *.
  cbn [set_tLast set_tDelta m_targetPos_deg m_isInverted m_targetPos_us]
    in *.
  rewrite Hus, Hdeg, Hinv. exact Hs.
Qed.

(** X15: the inversion command is the only thing that separates the target
    pulse width from the target angle: a call of [Update] with no command,
    or with any command other than [camServ_inv], keeps the target pulse
    width the conversion of the target angle under the stored flag, and a
    target command establishes it. *)
Theorem only_inversion_breaks_target_sync
        (env : Env) (command : CCommand) (s s' : ServoState)
        (out : list SerialOut) :
  Update env command s = Some (s', out) ->
  (isCommandAvailable env = false \/ Equals command "camServ_inv" = false) ->
  (target_in_sync s ->  target_in_sync s') /\
  (isCommandAvailable env = true -> Equals command "camServ_tpos" = true ->
   target_in_sync s').
Proof.
  unfold Update. intros HU Hc.
  destruct (if isCommandAvailable env then HandleCommand command s
            else ret (s, [])) as [[s1 o1]|] eqn:E1; [|discriminate].
  unfold bind in HU. simpl fst in HU. simpl snd in HU.
  destruct (if controlElapsed env
            then ControlTick (millis_first env) (millis_second env) s1
            else ret s1) as [s2|] eqn:E2; [|discriminate].
  destruct (if telemetryElapsed env then Telemetry s2 else ret [])
    as [o|]; [|discriminate].
  injection HU as <- _.
  assert (T : target_in_sync s1 -> target_in_sync s2).
  { destruct (controlElapsed env).
    - exact (ControlTick_keeps_sync _ _ _ _ E2).
    - injection E2 as <-. exact (fun H => H). }
  split.
  - intros Hs. apply T.
    destruct (isCommandAvailable env).
    + destruct Hc as [Hc|Hc]; [discriminate|].
      exact (HandleCommand_keeps_sync _ _ _ _ Hc E1 Hs).
    + injection E1 as <- _. exact Hs.
  - intros Ha Ht. apply T. rewrite Ha in E1.
    exact (tpos_in_sync _ _ _ _ Ht E1).
Qed.

Lemma only_inversion_breaks_target_sync_witness :
  exists s' out,
    Update (mkEnv true true 5 5 false) (camServ_spd 20000)
      inverted_at_10 = Some (s', out) /\
    target_in_sync s'.
Proof.
  assert (H : forall r,
             Update (mkEnv true true 5 5 false) (camServ_spd 20000)
               inverted_at_10 = Some r ->
             Update (mkEnv true true 5 5 false) (camServ_spd 20000)
               inverted_at_10 = Some (fst r, snd r))
    by (intros [a b] E; exact E).
  do 2 eexists.
  assert (E : Update (mkEnv true true 5 5 false) (camServ_spd 20000)
                inverted_at_10 = Some (_, _))
    by (apply H; vm_compute; reflexivity).
  split; [exact E|].
  apply (proj1 (only_inversion_breaks_target_sync _ _ _ _ _ E
                  (or_intror eq_refl))).
  unfold target_in_sync. vm_compute. reflexivity.
Defined.
